(** * ppt_generator: the presentation builder and its HTTP handler

    A shallow embedding of [src/ppt_generator_server.py].  Python objects
    are records, Python [str] is a list of Unicode code points, the
    builder's methods are computations in a small state-and-exception
    monad whose state is the builder object together with what the
    program has printed so far.

    The program is glue over three libraries.  What it uses of them is
    modelled from their documented behaviour: of python-pptx, slides,
    layouts, placeholders, shapes and text frames; of Flask, the
    uploaded file parts and the value a view returns; of the standard
    library, [str] methods, UTF-8 decoding and the JSON decoder.  The
    reading of the bytes of a [.pptx] package is a parameter of the
    handler.  Failures of the operating system (a full disk, a missing
    temporary directory) are not modelled. *)

From Stdlib Require Import ZArith NArith List String Ascii Bool Lia.
From Stdlib.Strings Require Import Byte.
From stdpp Require Import base tactics option list.

Set Warnings "-register-all".
Local Open Scope nat_scope.

(** ** Python strings *)

(** A Python [str] is a sequence of code points. *)
Abbreviation pystr := (list N).

(** An ASCII literal of the source as a Python string. *)
Definition py (s : string) : pystr :=
  List.map N_of_ascii (list_ascii_of_string s).

Definition NEWLINE : N := 10%N.

(** [str.isspace] on one code point: the table CPython's [str.strip()]
    consults when it is called without an argument. *)
Definition isspace (c : N) : bool :=
  ((9 <=? c) && (c <=? 13) || (28 <=? c) && (c <=? 32)
   || (c =? 133) || (c =? 160) || (c =? 5760)
   || (8192 <=? c) && (c <=? 8202)
   || (c =? 8232) || (c =? 8233) || (c =? 8239) || (c =? 8287)
   || (c =? 12288))%N.

(** [s.lstrip()], [s.rstrip()] and [s.strip()]. *)
Fixpoint lstrip (s : pystr) : pystr :=
  match s with
  | c :: s' => if isspace c then lstrip s' else s
  | [] => []
  end.

Definition rstrip (s : pystr) : pystr := rev (lstrip (rev s)).

Definition strip (s : pystr) : pystr := rstrip (lstrip s).

(** [s.split('\n')]: never empty, [''.split('\n') == ['']]. *)
Fixpoint split_nl (s : pystr) : list pystr :=
  match s with
  | [] => [[]]
  | c :: s' =>
      match split_nl s' with
      | l :: ls => if (c =? NEWLINE)%N then [] :: l :: ls else (c :: l) :: ls
      | [] => [[c]]
      end
  end.

(** [not s] for a string. *)
Definition is_empty (s : pystr) : bool :=
  match s with [] => true | _ => false end.


(** ** Python values, as [json.load] builds them *)

Inductive value :=
| VNone
| VBool (b : bool)
| VInt (z : Z)
| VFloat (lexeme : pystr)
| VStr (s : pystr)
| VList (l : list value)
| VDict (kvs : list (pystr * value)).

(** A [dict] keeps insertion order; [d[k]] finds the entry of key [k]. *)
Fixpoint dict_get (k : pystr) (kvs : list (pystr * value)) : option value :=
  match kvs with
  | [] => None
  | (k', v) :: kvs' => if bool_decide (k' = k) then Some v else dict_get k kvs'
  end.

Inductive exn :=
| KeyError (key : value)
| TypeError
| AttributeError
| IndexError
| UnicodeDecodeError
| RecursionError
| JSONDecodeError
| FileNotFoundError
| PackageNotFoundError.

(** ** The presentation document (python-pptx objects) *)

Inductive MSO_SHAPE_TYPE :=
| AUTO_SHAPE | CHART | FREEFORM | GROUP | LINE | MEDIA | PICTURE
| PLACEHOLDER | TABLE | TEXT_BOX.

Definition is_GROUP (t : MSO_SHAPE_TYPE) : bool :=
  match t with GROUP => true | _ => false end.

(** [Pt(n)]: a length in English Metric Units. *)
Definition Pt (points : Z) : Z := (points * 12700)%Z.

Record paragraph := {
  p_text : pystr;
  p_font_size : option Z;
  p_level : Z
}.

(** A shape of a slide's shape tree.  [ph_idx] is [Some idx] exactly when
    [shape.is_placeholder], and then [idx] is
    [shape.placeholder_format.idx]; [shape_id] stands for the rest of the
    shape's XML element. *)
Record shape := {
  shape_id : N;
  shape_type : MSO_SHAPE_TYPE;
  ph_idx : option N;
  text_frame : list paragraph
}.

Definition is_placeholder (sh : shape) : bool :=
  match ph_idx sh with Some _ => true | None => false end.

Inductive PP_PLACEHOLDER :=
| PH_TITLE | PH_CENTER_TITLE | PH_SUBTITLE | PH_BODY | PH_OBJECT
| PH_PICTURE | PH_DATE | PH_FOOTER | PH_SLIDE_NUMBER.

Record layout_placeholder := {
  lph_type : PP_PLACEHOLDER;
  lph_idx : N
}.

Record slide_layout := {
  layout_name : pystr;
  layout_placeholders : list layout_placeholder
}.

Record slide := {
  layout : slide_layout;
  shapes : list shape
}.

Record presentation := { slides : list slide }.

(** *** Library operations on the document *)

(** Date, footer and slide-number placeholders of a layout are not cloned
    onto a new slide. *)
Definition cloneable (p : layout_placeholder) : bool :=
  match lph_type p with
  | PH_DATE | PH_FOOTER | PH_SLIDE_NUMBER => false
  | _ => true
  end.

Definition empty_paragraph : paragraph :=
  {| p_text := []; p_font_size := None; p_level := 0 |}.

(** The shape tree's own element has id 1; the placeholders cloned from
    the layout get the ids after it. *)
Fixpoint clone_placeholders (next_id : N) (ps : list layout_placeholder)
  : list shape :=
  match ps with
  | [] => []
  | p :: ps' =>
      {| shape_id := next_id; shape_type := PLACEHOLDER;
         ph_idx := Some (lph_idx p); text_frame := [empty_paragraph] |}
      :: clone_placeholders (N.succ next_id) ps'
  end.

(** The slide [slides.add_slide(layout)] creates. *)
Definition new_slide_of (l : slide_layout) : slide :=
  {| layout := l;
     shapes := clone_placeholders 2 (List.filter cloneable (layout_placeholders l)) |}.

(** [shape.text = s] on a placeholder: one paragraph per line of [s]. *)
Definition paragraphs_of_text (s : pystr) : list paragraph :=
  List.map (fun l => {| p_text := l; p_font_size := None; p_level := 0 |})
           (split_nl s).



(** [text_frame.clear()]: all paragraphs but the first are removed and the
    first one loses its text, keeping its properties. *)
Definition TextFrame_clear (tf : list paragraph) : list paragraph :=
  match tf with
  | [] => []
  | p :: _ => [ {| p_text := []; p_font_size := p_font_size p;
                   p_level := p_level p |} ]
  end.

(** ** What the program prints *)

(** One constructor per [print] call of the source, carrying the values
    its f-string interpolates. *)
Inductive msg :=
| INIT_Loading_template (template_path : pystr)
| INIT_Base_slide_loaded
| SLIDE_Duplicating
| WARN_Skipping_grouped_shape
| SLIDE_Duplicated
| CONTENT_Adding_slide (title : value)
| CONTENT_Slide_added (title : value)
| BUILD_Building
| SECTION_Processing (section : pystr)
| ERROR_Missing_key (e : value)
| BUILD_complete
| SAVE_Saving (output_path : pystr)
| SAVE_complete
| REQUEST_received
| ERROR_Missing_files
| TEMP_created (tmpdir : pystr)
| FILE_Saving
| FILE_Reading
| ERROR_JSON_decode_failed
| PROCESS_Generating
| RESPONSE_Sending
| HEALTH_received.

(** ** The builder object and the monad of its methods *)

Record PresentationBuilder := {
  prs : presentation;
  base_slide : slide
}.

Record state := {
  self : PresentationBuilder;
  stdout : list msg
}.

Definition M (A : Type) : Type := state -> (exn + A) * state.

Definition ret {A} (a : A) : M A := fun s => (inr a, s).

Definition bind {A B} (c : M A) (k : A -> M B) : M B :=
  fun s => match c s with
           | (inr a, s') => k a s'
           | (inl e, s') => (inl e, s')
           end.

Definition raise {A} (e : exn) : M A := fun s => (inl e, s).

#[global] Instance M_ret : MRet M := @ret.
#[global] Instance M_bind : MBind M := fun A B k c => bind c k.

Definition print (m : msg) : M unit :=
  fun s => (inr tt, {| self := self s; stdout := stdout s ++ [m] |}).

Definition gets {A} (f : PresentationBuilder -> A) : M A :=
  fun s => (inr (f (self s)), s).

Definition modify_slides (f : list slide -> list slide) : M unit :=
  fun s => (inr tt,
            {| self := {| prs := {| slides := f (slides (prs (self s))) |};
                          base_slide := base_slide (self s) |};
               stdout := stdout s |}).

(** [for x in xs: body]. *)
Fixpoint for_ {A} (xs : list A) (body : A -> M unit) : M unit :=
  match xs with
  | [] => ret tt
  | x :: xs' => body x ;; for_ xs' body
  end.

(** [try: c except KeyError as e: h]. *)
Definition try_except_KeyError (c : M unit) (h : value -> M unit) : M unit :=
  fun s => match c s with
           | (inl (KeyError e), s') => h e s'
           | r => r
           end.

(** *** Object references into the document

    A slide object is referred to by its position in [prs.slides], a
    shape by its position in the slide's shape tree, a paragraph by its
    position in the text frame: the program only ever appends to these
    sequences, so a position keeps naming the same object. *)

Definition set_shapes (f : list shape -> list shape) (sl : slide) : slide :=
  {| layout := layout sl; shapes := f (shapes sl) |}.

Definition set_text_frame (f : list paragraph -> list paragraph) (sh : shape)
  : shape :=
  {| shape_id := shape_id sh; shape_type := shape_type sh;
     ph_idx := ph_idx sh; text_frame := f (text_frame sh) |}.

(** [prs.slides.add_slide(layout)]: appends the new slide, returns it. *)
Definition add_slide (l : slide_layout) : M nat :=
  i ← gets (fun b => length (slides (prs b)));
  modify_slides (fun sls => sls ++ [new_slide_of l]);;
  mret i.

(** [copy.deepcopy(el)]: a value is its own deep copy. *)
Definition deepcopy (el : shape) : shape := el.

(** [slide.shapes._spTree.insert_element_before(el, 'p:extLst')]: the
    element goes after the shapes already in the tree. *)
Definition insert_element_before_extLst (sl : nat) (el : shape) : M unit :=
  modify_slides (alter (set_shapes (fun shs => shs ++ [el])) sl).

Definition get_shapes (sl : nat) : M (list shape) :=
  gets (fun b => from_option shapes [] (slides (prs b) !! sl)).

Definition modify_frame (sl sh : nat) (f : list paragraph -> list paragraph)
  : M unit :=
  modify_slides (alter (set_shapes (alter (set_text_frame f) sh)) sl).

Definition get_frame (sl sh : nat) : M (list paragraph) :=
  gets (fun b =>
          from_option text_frame []
            (from_option shapes [] (slides (prs b) !! sl) !! sh)).

(** [text_frame.add_paragraph()]: appends an empty paragraph, returns it. *)
Definition add_paragraph (sl sh : nat) : M nat :=
  tf ← get_frame sl sh;
  modify_frame sl sh (fun tf => tf ++ [empty_paragraph]);;
  mret (length tf).

Definition set_p_text (t : pystr) (p : paragraph) : paragraph :=
  {| p_text := t; p_font_size := p_font_size p; p_level := p_level p |}.

Definition set_p_font_size (sz : Z) (p : paragraph) : paragraph :=
  {| p_text := p_text p; p_font_size := Some sz; p_level := p_level p |}.

Definition set_p_level (lvl : Z) (p : paragraph) : paragraph :=
  {| p_text := p_text p; p_font_size := p_font_size p; p_level := lvl |}.

(** A string operation on a Python value that is not a string raises
    [e]. *)
Definition str_of (e : exn) (v : value) : M pystr :=
  match v with
  | VStr s => mret s
  | _ => raise e
  end.

(** ** PresentationBuilder *)

(** The body of the loop of [duplicate_base_slide], lines 25-31. *)
Definition copy_shape (new_slide : nat) (shape : shape) : M unit :=
  if is_GROUP (shape_type shape) then
    print WARN_Skipping_grouped_shape
  else if is_placeholder shape then
    mret tt
  else
    let el := shape in
    insert_element_before_extLst new_slide (deepcopy el).

(** [duplicate_base_slide], lines 20-33. *)
Definition duplicate_base_slide : M nat :=
  print SLIDE_Duplicating;;
  base ← gets base_slide;
  let slide_layout := layout base in
  new_slide ← add_slide slide_layout;
  for_ (shapes base) (copy_shape new_slide);;
  print SLIDE_Duplicated;;
  mret new_slide.

(** The loop of lines 40-46: the last placeholder of index 0 and the last
    placeholder of another index, as positions in the shape tree. *)
Fixpoint find_placeholders (i : nat) (shs : list shape)
    (title_placeholder content_placeholder : option nat)
  : option nat * option nat :=
  match shs with
  | [] => (title_placeholder, content_placeholder)
  | shape :: shs' =>
      match ph_idx shape with
      | None =>
          find_placeholders (S i) shs' title_placeholder content_placeholder
      | Some idx =>
          if (idx =? 0)%N then
            find_placeholders (S i) shs' (Some i) content_placeholder
          else
            find_placeholders (S i) shs' title_placeholder (Some i)
      end
  end.

(** Line 48. *)
Definition truncated_title (title : pystr) : pystr :=
  if length title <? 200 then title else take 197 title ++ py "...".

(** The body of the loop over the lines of the content, lines 54-60. *)
Definition add_line (slide cp : nat) (line : pystr) : M unit :=
  let clean_line := strip line in
  if is_empty clean_line then
    mret tt
  else
    p ← add_paragraph slide cp;
    modify_frame slide cp (alter (set_p_text clean_line) p);;
    modify_frame slide cp (alter (set_p_font_size (Pt 18)) p);;
    modify_frame slide cp (alter (set_p_level 0) p).

(** [add_content_slide], lines 35-61.  A shape object is true, so
    [if title_placeholder:] asks whether the loop found one.  [title]
    and [content] are Python values: the method does not check their
    types.  A value that is not a string is outside the outline's
    schema; here it fails at the first string operation on it, the title
    at [len(title)] or at the assignment to [.text] (given as
    [TypeError], whichever exception the library raises), the content
    at [content.strip()]. *)
Definition add_content_slide (title content : value) : M unit :=
  print (CONTENT_Adding_slide title);;
  slide ← duplicate_base_slide;
  shs ← get_shapes slide;
  let '(title_placeholder, content_placeholder) :=
    find_placeholders 0 shs None None in
  match title_placeholder with
  | Some tp =>
      t ← str_of TypeError title;
      modify_frame slide tp (fun _ => paragraphs_of_text (truncated_title t))
  | None => mret tt
  end;;
  match content_placeholder with
  | Some cp =>
      modify_frame slide cp TextFrame_clear;;
      c ← str_of AttributeError content;
      for_ (split_nl (strip c)) (add_line slide cp)
  | None => mret tt
  end;;
  print (CONTENT_Slide_added title).

(** [content_dict.items()]. *)
Definition items (v : value) : M (list (pystr * value)) :=
  match v with
  | VDict kvs => mret kvs
  | _ => raise AttributeError
  end.

(** [iter(v)], as a [for] loop takes it. *)
Definition iter (v : value) : M (list value) :=
  match v with
  | VList l => mret l
  | VStr s => mret (List.map (fun c => VStr [c]) s)
  | VDict kvs => mret (List.map (fun kv => VStr (fst kv)) kvs)
  | _ => raise TypeError
  end.

(** [v[k]] for a string key [k]. *)
Definition getitem (v : value) (k : pystr) : M value :=
  match v with
  | VDict kvs =>
      match dict_get k kvs with
      | Some x => mret x
      | None => raise (KeyError (VStr k))
      end
  | _ => raise TypeError
  end.

(** The body of the inner loop, lines 69-72. *)
Definition build_slide (slide_data : value) : M unit :=
  try_except_KeyError
    (title ← getitem slide_data (py "title");
     content ← getitem slide_data (py "content");
     add_content_slide title content)
    (fun e => print (ERROR_Missing_key e)).

(** The body of the outer loop, lines 66-72. *)
Definition build_section (item : pystr * value) : M unit :=
  let '(section, slides) := item in
  print (SECTION_Processing section);;
  add_content_slide (VStr section) (VStr (py ""));;
  slide_datas ← iter slides;
  for_ slide_datas build_slide.

(** [build_from_content], lines 63-73. *)
Definition build_from_content (content_dict : value) : M unit :=
  print BUILD_Building;;
  its ← items content_dict;
  for_ its build_section;;
  print BUILD_complete.

(** ** Reading the content file: UTF-8 and JSON *)

(** A continuation byte [10xxxxxx] within [lo..hi]. *)
Definition cont (lo hi b : N) : bool := ((lo <=? b) && (b <=? hi))%N.

(** [bytes.decode('utf-8')], strict: overlong forms, surrogates and code
    points above U+10FFFF are refused. *)
Fixpoint utf8_decode (bs : list N) : option pystr :=
  match bs with
  | [] => Some []
  | b0 :: bs1 =>
      if (b0 <? 128)%N then cons b0 <$> utf8_decode bs1
      else if ((194 <=? b0) && (b0 <=? 223))%N then
        match bs1 with
        | b1 :: bs2 =>
            if cont 128 191 b1 then
              cons ((b0 - 192) * 64 + (b1 - 128))%N <$> utf8_decode bs2
            else None
        | _ => None
        end
      else if ((224 <=? b0) && (b0 <=? 239))%N then
        match bs1 with
        | b1 :: b2 :: bs3 =>
            let lo := if (b0 =? 224)%N then 160%N else 128%N in
            let hi := if (b0 =? 237)%N then 159%N else 191%N in
            if cont lo hi b1 && cont 128 191 b2 then
              cons ((b0 - 224) * 4096 + (b1 - 128) * 64 + (b2 - 128))%N
                <$> utf8_decode bs3
            else None
        | _ => None
        end
      else if ((240 <=? b0) && (b0 <=? 244))%N then
        match bs1 with
        | b1 :: b2 :: b3 :: bs4 =>
            let lo := if (b0 =? 240)%N then 144%N else 128%N in
            let hi := if (b0 =? 244)%N then 143%N else 191%N in
            if cont lo hi b1 && cont 128 191 b2 && cont 128 191 b3 then
              cons ((b0 - 240) * 262144 + (b1 - 128) * 4096
                    + (b2 - 128) * 64 + (b3 - 128))%N
                <$> utf8_decode bs4
            else None
        | _ => None
        end
      else None
  end.

(** Text mode with the default [newline=None]: ['\r\n'] and ['\r'] are
    read as ['\n']. *)
Fixpoint universal_newlines (s : pystr) : pystr :=
  match s with
  | [] => []
  | c :: s' =>
      if (c =? 13)%N then
        match s' with
        | c' :: s'' =>
            if (c' =? 10)%N then 10%N :: universal_newlines s''
            else 10%N :: universal_newlines s'
        | [] => [10%N]
        end
      else c :: universal_newlines s'
  end.

Definition ch (a : ascii) : N := N_of_ascii a.
Arguments ch : simpl never.
Definition QUOTE : N := 34%N.
Definition BACKSLASH : N := 92%N.

(** The decoder's [WHITESPACE]: space, tab, line feed, carriage return. *)
Definition json_ws (c : N) : bool :=
  ((c =? 32) || (c =? 9) || (c =? 10) || (c =? 13))%N.

Fixpoint skip_ws (s : pystr) : pystr :=
  match s with
  | c :: s' => if json_ws c then skip_ws s' else s
  | [] => []
  end.

Definition is_digit (c : N) : bool := ((48 <=? c) && (c <=? 57))%N.

Definition hex_digit (c : N) : option N :=
  if is_digit c then Some (c - 48)%N
  else if ((97 <=? c) && (c <=? 102))%N then Some (c - 87)%N
  else if ((65 <=? c) && (c <=? 70))%N then Some (c - 55)%N
  else None.

(** The four hexadecimal digits of a [\uXXXX] escape. *)
Definition hex4 (a b c d : N) : option N :=
  a ← hex_digit a; b ← hex_digit b; c ← hex_digit c; d ← hex_digit d;
  Some (a * 4096 + b * 256 + c * 16 + d)%N.

Definition high_surrogate (u : N) : bool := ((55296 <=? u) && (u <=? 56319))%N.
Definition low_surrogate (u : N) : bool := ((56320 <=? u) && (u <=? 57343))%N.

(** The character a one-letter escape stands for. *)
Definition plain_escape (e : N) : option N :=
  if (e =? QUOTE)%N then Some QUOTE
  else if (e =? BACKSLASH)%N then Some BACKSLASH
  else if (e =? ch "/")%N then Some (ch "/")
  else if (e =? ch "b")%N then Some 8%N
  else if (e =? ch "f")%N then Some 12%N
  else if (e =? ch "n")%N then Some 10%N
  else if (e =? ch "r")%N then Some 13%N
  else if (e =? ch "t")%N then Some 9%N
  else None.

Fixpoint strip_prefix (p s : pystr) : option pystr :=
  match p, s with
  | [], _ => Some s
  | a :: p', b :: s' => if (a =? b)%N then strip_prefix p' s' else None
  | _ :: _, [] => None
  end.

(** [scanstring] after the opening quote, strict: a control character
    inside the string is an error; a [\u] high surrogate directly
    followed by a [\u] low surrogate makes one code point. *)
Fixpoint scanstring (s acc : pystr) {struct s} : option (pystr * pystr) :=
  match s with
  | [] => None
  | c :: s' =>
      if (c =? QUOTE)%N then Some (rev acc, s')
      else if (c =? BACKSLASH)%N then
        match s' with
        | [] => None
        | e :: s'' =>
            if (e =? ch "u")%N then
              match s'' with
              | h1 :: h2 :: h3 :: h4 :: r =>
                  match hex4 h1 h2 h3 h4 with
                  | None => None
                  | Some u =>
                      match r with
                      | b :: e' :: l1 :: l2 :: l3 :: l4 :: r' =>
                          match hex4 l1 l2 l3 l4 with
                          | Some u2 =>
                              if high_surrogate u && (b =? BACKSLASH)%N
                                 && (e' =? ch "u")%N && low_surrogate u2
                              then
                                scanstring r'
                                  ((65536 + (u - 55296) * 1024
                                    + (u2 - 56320))%N :: acc)
                              else scanstring r (u :: acc)
                          | None => scanstring r (u :: acc)
                          end
                      | _ => scanstring r (u :: acc)
                      end
                  end
              | _ => None
              end
            else
              match plain_escape e with
              | Some x => scanstring s'' (x :: acc)
              | None => None
              end
        end
      else if (c <=? 31)%N then None
      else scanstring s' (c :: acc)
  end.

Fixpoint span_digits (s : pystr) : pystr * pystr :=
  match s with
  | c :: s' =>
      if is_digit c then let '(ds, r) := span_digits s' in (c :: ds, r)
      else ([], s)
  | [] => ([], [])
  end.

Definition int_of_digits (ds : pystr) : Z :=
  fold_left (fun acc d => (acc * 10 + Z.of_N (d - 48))%Z) ds 0%Z.

(** The number at the head of [s]: an optional minus sign; a zero, or a
    non-zero digit and further digits; optionally a point and digits;
    optionally an exponent mark, a sign and digits. *)
Definition match_number (s : pystr) : option (value * pystr) :=
  let '(neg, s1) :=
    match s with
    | c :: s' => if (c =? ch "-")%N then (true, s') else (false, s)
    | [] => (false, s)
    end in
  let int_part :=
    match s1 with
    | c :: s' =>
        if (c =? ch "0")%N then Some ([c], s')
        else if is_digit c then Some (span_digits s1)
        else None
    | [] => None
    end in
  match int_part with
  | None => None
  | Some (ip, s2) =>
      let '(frac, s3) :=
        match s2 with
        | c :: s' =>
            if (c =? ch ".")%N then
              match span_digits s' with
              | ([], _) => ([], s2)
              | (ds, r) => (c :: ds, r)
              end
            else ([], s2)
        | [] => ([], s2)
        end in
      let '(ex, s4) :=
        match s3 with
        | c :: s' =>
            if ((c =? ch "e") || (c =? ch "E"))%N then
              let '(sign, s'') :=
                match s' with
                | g :: t =>
                    if ((g =? ch "+") || (g =? ch "-"))%N then ([g], t)
                    else ([], s')
                | [] => ([], s')
                end in
              match span_digits s'' with
              | ([], _) => ([], s3)
              | (ds, r) => (c :: sign ++ ds, r)
              end
            else ([], s3)
        | [] => ([], s3)
        end in
      match frac, ex with
      | [], [] =>
          Some (VInt (if neg then - int_of_digits ip else int_of_digits ip)%Z,
                s4)
      | _, _ =>
          Some (VFloat ((if neg then [ch "-"] else []) ++ ip ++ frac ++ ex),
                s4)
      end
  end.

(** [rval[key] = val] on the dict being built: a repeated key keeps its
    place and takes the later value. *)
Fixpoint dict_set (k : pystr) (v : value) (kvs : list (pystr * value))
  : list (pystr * value) :=
  match kvs with
  | [] => [(k, v)]
  | (k', v') :: kvs' =>
      if bool_decide (k' = k) then (k, v) :: kvs'
      else (k', v') :: dict_set k v kvs'
  end.

Definition literal (lit : string) (v : value) (s : pystr)
  : option (exn + value * pystr) :=
  match strip_prefix (py lit) s with
  | Some r => Some (inr (v, r))
  | None => None
  end.

(** The loop over the elements of an array, after the opening bracket
    and the whitespace behind it; [scan] reads one value.  Every turn
    consumes input, [fuel] bounds the turns by the length of the
    input. *)
Fixpoint elements (scan : pystr -> exn + value * pystr) (fuel : nat)
    (acc : list value) (s : pystr) {struct fuel} : exn + value * pystr :=
  match fuel with
  | O => inl JSONDecodeError
  | S fuel' =>
      match scan s with
      | inl e => inl e
      | inr (v, r) =>
          match skip_ws r with
          | x :: r' =>
              if (x =? ch "]")%N then inr (VList (rev (v :: acc)), r')
              else if (x =? ch ",")%N then
                elements scan fuel' (v :: acc) (skip_ws r')
              else inl JSONDecodeError
          | [] => inl JSONDecodeError
          end
      end
  end.

(** The loop over the members of an object, likewise. *)
Fixpoint members (scan : pystr -> exn + value * pystr) (fuel : nat)
    (acc : list (pystr * value)) (s : pystr) {struct fuel}
  : exn + value * pystr :=
  match fuel with
  | O => inl JSONDecodeError
  | S fuel' =>
      match s with
      | q :: s1 =>
          if (q =? QUOTE)%N then
            match scanstring s1 [] with
            | None => inl JSONDecodeError
            | Some (key, r) =>
                match skip_ws r with
                | colon :: r1 =>
                    if (colon =? ch ":")%N then
                      match scan (skip_ws r1) with
                      | inl e => inl e
                      | inr (v, r2) =>
                          let acc' := dict_set key v acc in
                          match skip_ws r2 with
                          | x :: r3 =>
                              if (x =? ch "}")%N then inr (VDict acc', r3)
                              else if (x =? ch ",")%N then
                                members scan fuel' acc' (skip_ws r3)
                              else inl JSONDecodeError
                          | [] => inl JSONDecodeError
                          end
                      end
                    else inl JSONDecodeError
                | [] => inl JSONDecodeError
                end
            end
          else inl JSONDecodeError
      | [] => inl JSONDecodeError
      end
  end.

(** The constants and numbers [scan_once] reads when the value is
    neither a string nor a container. *)
Definition scan_atom (s : pystr) : exn + value * pystr :=
  match literal "null" VNone s with Some r => r | None =>
  match literal "true" (VBool true) s with Some r => r | None =>
  match literal "false" (VBool false) s with Some r => r | None =>
  match literal "NaN" (VFloat (py "NaN")) s with Some r => r | None =>
  match literal "Infinity" (VFloat (py "Infinity")) s with
  | Some r => r | None =>
  match literal "-Infinity" (VFloat (py "-Infinity")) s with
  | Some r => r | None =>
  match match_number s with
  | Some r => inr r
  | None => inl JSONDecodeError
  end end end end end end end.

(** [scan_once]: the value at the head of [s].  [depth] is the number of
    containers the decoder may still open before the interpreter's
    recursion limit is reached. *)
Fixpoint scan_once (depth : nat) (s : pystr) {struct depth}
  : exn + value * pystr :=
  match s with
  | [] => inl JSONDecodeError
  | c :: s' =>
      if (c =? QUOTE)%N then
        match scanstring s' [] with
        | Some (str, r) => inr (VStr str, r)
        | None => inl JSONDecodeError
        end
      else if (c =? ch "[")%N then
        match depth with
        | O => inl RecursionError
        | S d =>
            match skip_ws s' with
            | x :: r =>
                if (x =? ch "]")%N then inr (VList [], r)
                else elements (scan_once d) (S (length r)) [] (x :: r)
            | [] => inl JSONDecodeError
            end
        end
      else if (c =? ch "{")%N then
        match depth with
        | O => inl RecursionError
        | S d =>
            match skip_ws s' with
            | x :: r =>
                if (x =? ch "}")%N then inr (VDict [], r)
                else members (scan_once d) (S (length r)) [] (x :: r)
            | [] => inl JSONDecodeError
            end
        end
      else scan_atom s
  end.

(** [json.loads(s)] for a [str]. *)
Definition json_loads (recursion_limit : nat) (s : pystr) : exn + value :=
  match s with
  | 65279%N :: _ => inl JSONDecodeError
  | _ =>
      match scan_once recursion_limit (skip_ws s) with
      | inl e => inl e
      | inr (v, r) =>
          match skip_ws r with
          | [] => inr v
          | _ :: _ => inl JSONDecodeError
          end
      end
  end.


(** ** The Flask application *)

Definition bytes_N (bs : list byte) : list N := List.map Byte.to_N bs.

(** An uploaded file part.  [bool(f)] is [bool(f.filename)]. *)
Record FileStorage := {
  filename : pystr;
  stream : list byte
}.

Definition FileStorage_bool (f : FileStorage) : bool :=
  negb (is_empty (filename f)).

(** [request.files], a multi-dict: [get] returns the first part of that
    name, or [None]. *)
Record request := { files : list (pystr * FileStorage) }.

Fixpoint files_get (k : pystr) (fs : list (pystr * FileStorage))
  : option FileStorage :=
  match fs with
  | [] => None
  | (k', f) :: fs' => if bool_decide (k' = k) then Some f else files_get k fs'
  end.

(** A file of the temporary directory: the bytes of an upload, or the
    package [prs.save] serialises. *)
Inductive file_data :=
| Raw (bytes : list byte)
| Package (p : presentation).

Abbreviation filesystem := (list (pystr * file_data)).

Definition fs_write (path : pystr) (d : file_data) (fs : filesystem)
  : filesystem := (path, d) :: fs.

Fixpoint fs_read (path : pystr) (fs : filesystem) : option file_data :=
  match fs with
  | [] => None
  | (p, d) :: fs' => if bool_decide (p = path) then Some d else fs_read path fs'
  end.

(** What the handler takes from its surroundings: the directory
    [tempfile.TemporaryDirectory()] creates, the reading of the bytes of
    a [.pptx] package by [pptx.Presentation], and the depth of nesting
    the interpreter's recursion limit leaves to the JSON decoder. *)
Record environment := {
  tmpdir : pystr;
  open_package : list byte -> exn + presentation;
  recursion_limit : nat
}.

(** [os.path.join(a, b)] on POSIX. *)
Definition os_path_join (a b : pystr) : pystr :=
  match b with
  | 47%N :: _ => b
  | _ =>
      match rev a with
      | [] => b
      | 47%N :: _ => a ++ b
      | _ => a ++ 47%N :: b
      end
  end.

(** [pptx.Presentation(path)]. *)
Definition Presentation (env : environment) (fs : filesystem) (path : pystr)
  : exn + presentation :=
  match fs_read path fs with
  | Some (Raw bytes) => open_package env bytes
  | Some (Package p) => inr p
  | None => inl PackageNotFoundError
  end.

(** [json.load(f)] for [f = open(path, 'r', encoding='utf-8')]. *)
Definition json_load (env : environment) (fs : filesystem) (path : pystr)
  : exn + value :=
  match fs_read path fs with
  | Some (Raw bytes) =>
      match utf8_decode (bytes_N bytes) with
      | Some text => json_loads (recursion_limit env) (universal_newlines text)
      | None => inl UnicodeDecodeError
      end
  | Some (Package _) => inl UnicodeDecodeError
  | None => inl FileNotFoundError
  end.

(** [PresentationBuilder.__init__], lines 14-18: the new builder, or the
    exception, and what has been printed. *)
Definition PresentationBuilder_init (env : environment) (fs : filesystem)
    (template_path : pystr) (out : list msg)
  : (exn + PresentationBuilder) * list msg :=
  let out := out ++ [INIT_Loading_template template_path] in
  match Presentation env fs template_path with
  | inl e => (inl e, out)
  | inr prs =>
      match slides prs !! 0 with
      | None => (inl IndexError, out)
      | Some base_slide =>
          (inr {| prs := prs; base_slide := base_slide |},
           out ++ [INIT_Base_slide_loaded])
      end
  end.

(** [save], lines 75-78. *)
Definition save (output_path : pystr) (fs : filesystem) : M filesystem :=
  print (SAVE_Saving output_path);;
  prs ← gets prs;
  let fs := fs_write output_path (Package prs) fs in
  print SAVE_complete;;
  mret fs.

(** What a view function hands back to Flask. *)
Inductive response :=
| JsonResponse (body : list (pystr * pystr)) (status : Z)
| FileResponse (data : option file_data) (as_attachment : bool)
    (download_name : pystr).

(** The builder's part of the handler, lines 109-110. *)
Definition build_and_save (content : value) (output_path : pystr)
    (fs : filesystem) : M filesystem :=
  build_from_content content;;
  save output_path fs.

(** [generate_ppt], lines 81-113: the response, or the exception that
    leaves the handler, and what has been printed. *)
Definition generate_ppt (env : environment) (req : request)
  : (exn + response) * list msg :=
  let out := [REQUEST_received] in
  let template := files_get (py "template") (files req) in
  let content_file := files_get (py "content") (files req) in
  let missing :=
    (inr (JsonResponse
            [(py "error", py "Both template and content files are required.")]
            400),
     out ++ [ERROR_Missing_files]) in
  match template, content_file with
  | Some template, Some content_file =>
      if negb (FileStorage_bool template)
         || negb (FileStorage_bool content_file) then missing
      else
        let out := out ++ [TEMP_created (tmpdir env)] in
        let template_path := os_path_join (tmpdir env) (py "template.pptx") in
        let content_path := os_path_join (tmpdir env) (py "content.json") in
        let output_path := os_path_join (tmpdir env) (py "output.pptx") in
        let out := out ++ [FILE_Saving] in
        let fs := fs_write template_path (Raw (stream template)) [] in
        let fs := fs_write content_path (Raw (stream content_file)) fs in
        let out := out ++ [FILE_Reading] in
        match json_load env fs content_path with
        | inl JSONDecodeError =>
            (inr (JsonResponse
                    [(py "error", py "Invalid JSON content file.")] 400),
             out ++ [ERROR_JSON_decode_failed])
        | inl e => (inl e, out)
        | inr content =>
            let out := out ++ [PROCESS_Generating] in
            match PresentationBuilder_init env fs template_path out with
            | (inl e, out) => (inl e, out)
            | (inr builder, out) =>
                match build_and_save content output_path fs
                        {| self := builder; stdout := out |} with
                | (inl e, s) => (inl e, stdout s)
                | (inr fs, s) =>
                    (inr (FileResponse (fs_read output_path fs) true
                            (py "Generated_Presentation.pptx")),
                     stdout s ++ [RESPONSE_Sending])
                end
            end
        end
  | _, _ => missing
  end.

(** [health_check], lines 116-118. *)
Definition health_check : (exn + response) * list msg :=
  (inr (JsonResponse [(py "status", py "Service is healthy")] 200),
   [HEALTH_received]).

(** * Specification

    What the methods are shown to compute, in closed form, and the
    examples the statements are tried on. *)

(** ** States *)

(** The state with slides [sls], base slide [base] and output [out]. *)
Definition St (sls : list slide) (base : slide) (out : list msg) : state :=
  {| self := {| prs := {| slides := sls |}; base_slide := base |};
     stdout := out |}.

(** ** The slide duplicate_base_slide appends *)

(** The shapes the loop of [duplicate_base_slide] copies. *)
Definition copied (sh : shape) : bool :=
  negb (is_GROUP (shape_type sh)) && negb (is_placeholder sh).

Definition grouped (sh : shape) : bool := is_GROUP (shape_type sh).

(** The slide [duplicate_base_slide] appends. *)
Definition duplicated_slide (base : slide) : slide :=
  {| layout := layout base;
     shapes := shapes (new_slide_of (layout base))
               ++ List.filter copied (shapes base) |}.

(** ** The slide add_content_slide appends *)

(** The paragraph one line of the content contributes. *)
Definition body_paragraph (clean_line : pystr) : paragraph :=
  {| p_text := clean_line; p_font_size := Some (Pt 18); p_level := 0 |}.

Definition line_paragraphs (line : pystr) : list paragraph :=
  if is_empty (strip line) then [] else [body_paragraph (strip line)].

(** The title and body the method writes onto a freshly duplicated
    slide [d]. *)
Definition set_title (title : pystr) (tp : option nat) (d : slide) : slide :=
  match tp with
  | Some j =>
      set_shapes
        (alter (set_text_frame
                  (fun _ => paragraphs_of_text (truncated_title title))) j) d
  | None => d
  end.

Definition set_body (content : pystr) (cp : option nat) (d : slide) : slide :=
  match cp with
  | Some j =>
      set_shapes
        (alter (set_text_frame
                  (fun tf => TextFrame_clear tf
                             ++ flat_map line_paragraphs
                                  (split_nl (strip content)))) j) d
  | None => d
  end.

Definition content_slide (base : slide) (title content : pystr) : slide :=
  let d := duplicated_slide base in
  let '(tp, cp) := find_placeholders 0 (shapes d) None None in
  set_body content cp (set_title title tp d).

Definition duplicate_msgs (base : slide) : list msg :=
  SLIDE_Duplicating
  :: List.map (fun _ => WARN_Skipping_grouped_shape)
              (List.filter grouped (shapes base))
  ++ [SLIDE_Duplicated].

Definition content_msgs (base : slide) (title : value) : list msg :=
  CONTENT_Adding_slide title :: duplicate_msgs base
  ++ [CONTENT_Slide_added title].

(** ** Descriptors, outlines and what build_from_content appends *)

(** What a slide descriptor makes of the two subscriptions of line 70. *)
Inductive descriptor :=
| Complete (title content : pystr)
| Missing (key : pystr)
| IllTyped.

Definition classify (slide_data : value) : descriptor :=
  match slide_data with
  | VDict kvs =>
      match dict_get (py "title") kvs with
      | None => Missing (py "title")
      | Some t =>
          match dict_get (py "content") kvs with
          | None => Missing (py "content")
          | Some c =>
              match t, c with
              | VStr title, VStr content => Complete title content
              | _, _ => IllTyped
              end
          end
      end
  | _ => IllTyped
  end.

(** The descriptor is a JSON object, and where it has both keys their
    values are strings. *)
Definition well_typed (slide_data : value) : bool :=
  match classify slide_data with IllTyped => false | _ => true end.


(** The descriptor is a JSON object without the key ['title'] or without
    the key ['content']. *)
Definition lacks_key (slide_data : value) : bool :=
  match slide_data with
  | VDict kvs =>
      match dict_get (py "title") kvs, dict_get (py "content") kvs with
      | Some _, Some _ => false
      | _, _ => true
      end
  | _ => false
  end.

Definition descriptor_slides (base : slide) (slide_data : value) : list slide :=
  match classify slide_data with
  | Complete title content => [content_slide base title content]
  | _ => []
  end.

Definition descriptor_msgs (base : slide) (slide_data : value) : list msg :=
  match classify slide_data with
  | Complete title content => content_msgs base (VStr title)
  | Missing key => [ERROR_Missing_key (VStr key)]
  | IllTyped => []
  end.

(** An outline as the schema has it: sections in mapping order, each
    with its list of slide descriptors. *)
Abbreviation outline := (list (pystr * list value)).

Definition section_item (sec : pystr * list value) : pystr * value :=
  (fst sec, VList (snd sec)).

Definition outline_value (o : outline) : value :=
  VDict (List.map section_item o).

Definition well_typed_outline (o : outline) : bool :=
  forallb (fun sec => forallb well_typed (snd sec)) o.

Definition section_slides (base : slide) (sec : pystr * list value)
  : list slide :=
  content_slide base (fst sec) (py "")
  :: flat_map (descriptor_slides base) (snd sec).

Definition section_msgs (base : slide) (sec : pystr * list value)
  : list msg :=
  SECTION_Processing (fst sec)
  :: content_msgs base (VStr (fst sec))
  ++ flat_map (descriptor_msgs base) (snd sec).

(** ** The lines of a content *)



(** ** Reading a slide *)

(** The positions of the title and body placeholders of a slide, as the
    loop of lines 40-46 finds them. *)
Definition title_placeholder (sl : slide) : option nat :=
  fst (find_placeholders 0 (shapes sl) None None).

Definition content_placeholder (sl : slide) : option nat :=
  snd (find_placeholders 0 (shapes sl) None None).



(** ** An example template, outline and request *)

Definition title_and_content : slide_layout :=
  {| layout_name := py "Title and Content";
     layout_placeholders :=
       [ {| lph_type := PH_TITLE; lph_idx := 0 |};
         {| lph_type := PH_BODY; lph_idx := 1 |};
         {| lph_type := PH_DATE; lph_idx := 10 |} ] |}.

(** A base slide with a title placeholder, a logo and a grouped shape. *)
Definition example_base : slide :=
  {| layout := title_and_content;
     shapes :=
       [ {| shape_id := 2; shape_type := PLACEHOLDER; ph_idx := Some 0%N;
            text_frame := [empty_paragraph] |};
         {| shape_id := 7; shape_type := PICTURE; ph_idx := None;
            text_frame := [] |};
         {| shape_id := 8; shape_type := GROUP; ph_idx := None;
            text_frame := [] |} ] |}.

Definition example_builder : state := St [example_base] example_base [].





(** ** An example request *)

(** The bytes of an ASCII text in which an apostrophe stands for a
    double quote. *)
Definition json_bytes (s : string) : list byte :=
  List.map (fun b => if Byte.eqb b x27 then x22 else b)
           (list_byte_of_string s).

Definition request_ok : request :=
  {| files := [(py "template",
                {| filename := py "template.pptx";
                   stream := [x50; x4b] |});
               (py "content",
                {| filename := py "content.json";
                   stream := json_bytes
                     "{'Intro': [{'title': 'Welcome', 'content': 'a\nb'},
                                 {'title': 'No content'}],
                       'End': []}" |})] |}.

(** ** The calls an outline stands for *)



(** ** The handler: the lines of the builder, more example requests *)

(** The lines only the methods of [PresentationBuilder] print; each
    method prints one on entry. *)
Definition printed_by_builder (m : msg) : bool :=
  match m with
  | INIT_Loading_template _ | INIT_Base_slide_loaded
  | SLIDE_Duplicating | WARN_Skipping_grouped_shape | SLIDE_Duplicated
  | CONTENT_Adding_slide _ | CONTENT_Slide_added _
  | BUILD_Building | SECTION_Processing _ | ERROR_Missing_key _
  | BUILD_complete | SAVE_Saving _ | SAVE_complete => true
  | _ => false
  end.

Definition builder_invoked (out : list msg) : bool :=
  existsb printed_by_builder out.

Definition error_object (message : pystr) : response :=
  JsonResponse [(py "error", message)] 400.

(** A request that carries only the template. *)
Definition request_without_content : request :=
  {| files := [(py "template",
                {| filename := py "template.pptx";
                   stream := [x50; x4b] |})] |}.

Definition example_env : environment :=
  {| tmpdir := py "/tmp/tmpk3v9x1";
     open_package := fun bytes =>
       match bytes with
       | [x50; x4b] => inr {| slides := [example_base] |}
       | _ => inl PackageNotFoundError
       end;
     recursion_limit := 900 |}.

(** A request whose content is the text [[1,]. *)
Definition request_bad_json : request :=
  {| files := [(py "template",
                {| filename := py "template.pptx";
                   stream := [x50; x4b] |});
               (py "content",
                {| filename := py "content.json";
                   stream := [x5b; x31; x2c; x5d] |})] |}.

(** A request whose content is the single byte 0xFF. *)
Definition request_not_utf8 : request :=
  {| files := [(py "template",
                {| filename := py "template.pptx";
                   stream := [x50; x4b] |});
               (py "content",
                {| filename := py "content.json";
                   stream := [xff] |})] |}.

(** * Properties *)

(** ** Running the monad *)

Lemma state_eta (s : state) :
  s = St (slides (prs (self s))) (base_slide (self s)) (stdout s).
Proof. by destruct s as [[[sls] base] out]. Qed.

Lemma bind_inr {A B} (c : M A) (k : A -> M B) s a s' :
  c s = (inr a, s') -> (c ≫= k) s = k a s'.
Proof. intros H. unfold mbind, M_bind, bind. by rewrite H. Qed.

Lemma bind_inl {A B} (c : M A) (k : A -> M B) s e s' :
  c s = (inl e, s') -> (c ≫= k) s = (inl e, s').
Proof. intros H. unfold mbind, M_bind, bind. by rewrite H. Qed.

Lemma print_run m sls base out :
  print m (St sls base out) = (inr tt, St sls base (out ++ [m])).
Proof. reflexivity. Qed.

Lemma modify_slides_run f sls base out :
  modify_slides f (St sls base out) = (inr tt, St (f sls) base out).
Proof. reflexivity. Qed.


(** ** duplicate_base_slide *)

Lemma alter_last {A} (f : A -> A) (pre : list A) (x : A) :
  alter f (length pre) (pre ++ [x]) = pre ++ [f x].
Proof.
  replace (length pre) with (length pre + 0) by lia.
  by rewrite alter_app_r.
Qed.

Lemma copy_shape_run i sh sls base out :
  copy_shape i sh (St sls base out) =
  (inr tt,
   if grouped sh then St sls base (out ++ [WARN_Skipping_grouped_shape])
   else if is_placeholder sh then St sls base out
   else St (alter (set_shapes (fun shs => shs ++ [sh])) i sls) base out).
Proof.
  unfold copy_shape, grouped.
  destruct (is_GROUP (shape_type sh)); [reflexivity|].
  destruct (is_placeholder sh); reflexivity.
Qed.

Lemma copy_loop (l : list shape) : forall pre sl base out,
  for_ l (copy_shape (length pre)) (St (pre ++ [sl]) base out) =
  (inr tt,
   St (pre ++ [set_shapes (fun shs => shs ++ List.filter copied l) sl]) base
      (out ++ List.map (fun _ => WARN_Skipping_grouped_shape)
                       (List.filter grouped l))).
Proof.
  induction l as [|sh l IH]; intros pre sl base out; simpl.
  - rewrite !app_nil_r. destruct sl as [ly shs]. unfold set_shapes; simpl.
    by rewrite app_nil_r.
  - erewrite bind_inr by apply copy_shape_run.
    unfold copied at 1. fold (grouped sh).
    destruct (grouped sh) eqn:Hg; simpl.
    + rewrite IH. by rewrite <- app_assoc.
    + destruct (is_placeholder sh) eqn:Hp; simpl.
      * apply IH.
      * rewrite alter_last, IH. do 4 f_equal.
        destruct sl as [ly shs]. unfold set_shapes; simpl.
        by rewrite <- app_assoc.
Qed.

Lemma duplicate_base_slide_run sls base out :
  duplicate_base_slide (St sls base out) =
  (inr (length sls),
   St (sls ++ [duplicated_slide base]) base
      (out ++ SLIDE_Duplicating
           :: List.map (fun _ => WARN_Skipping_grouped_shape)
                       (List.filter grouped (shapes base))
           ++ [SLIDE_Duplicated])).
Proof.
  unfold duplicate_base_slide.
  erewrite bind_inr by apply print_run.
  erewrite bind_inr by reflexivity. simpl.
  unfold add_slide.
  erewrite bind_inr; cycle 1.
  { erewrite bind_inr by reflexivity.
    erewrite bind_inr by apply modify_slides_run. reflexivity. }
  simpl. erewrite bind_inr by apply copy_loop.
  erewrite bind_inr by apply print_run.
  unfold mret, M_ret, ret. f_equal. unfold duplicated_slide, set_shapes.
  simpl. f_equal. rewrite <- !app_assoc. reflexivity.
Qed.

(** ** add_content_slide *)

Lemma lookup_last {A} (pre : list A) (x : A) :
  (pre ++ [x]) !! length pre = Some x.
Proof. by apply list_lookup_middle. Qed.

Lemma modify_frame_run i cp f pre sl base out :
  i = length pre ->
  modify_frame i cp f (St (pre ++ [sl]) base out) =
  (inr tt,
   St (pre ++ [set_shapes (alter (set_text_frame f) cp) sl]) base out).
Proof.
  intros ->. unfold modify_frame. rewrite modify_slides_run.
  by rewrite alter_last.
Qed.

Lemma get_frame_run cp pre sl base out :
  get_frame (length pre) cp (St (pre ++ [sl]) base out) =
  (inr (from_option text_frame [] (shapes sl !! cp)),
   St (pre ++ [sl]) base out).
Proof. unfold get_frame, gets. simpl. by rewrite lookup_last. Qed.

Lemma set_shapes_alter_compose (f g : list paragraph -> list paragraph) cp sl :
  set_shapes (alter (set_text_frame g) cp)
    (set_shapes (alter (set_text_frame f) cp) sl) =
  set_shapes (alter (set_text_frame (g ∘ f)) cp) sl.
Proof.
  destruct sl as [ly shs]. unfold set_shapes; simpl. f_equal.
  rewrite list_alter_alter_eq. apply list_alter_ext; [|done].
  by intros [] _.
Qed.

Lemma set_shapes_alter_ext (f g : list paragraph -> list paragraph) cp sl :
  (forall sh, shapes sl !! cp = Some sh -> f (text_frame sh) = g (text_frame sh)) ->
  set_shapes (alter (set_text_frame f) cp) sl =
  set_shapes (alter (set_text_frame g) cp) sl.
Proof.
  intros H. destruct sl as [ly shs]. unfold set_shapes; simpl in *. f_equal.
  apply list_alter_ext; [|done]. intros sh Hsh. unfold set_text_frame.
  by rewrite (H sh Hsh).
Qed.

Lemma set_shapes_alter_id (f : list paragraph -> list paragraph) cp sl :
  (forall tf, f tf = tf) ->
  set_shapes (alter (set_text_frame f) cp) sl = sl.
Proof.
  intros H. destruct sl as [ly shs]. unfold set_shapes; simpl. f_equal.
  apply list_alter_id. intros []. unfold set_text_frame; simpl. by rewrite H.
Qed.

Lemma add_line_run cp line pre sl base out :
  add_line (length pre) cp line (St (pre ++ [sl]) base out) =
  (inr tt,
   St (pre ++ [set_shapes
                 (alter (set_text_frame (fun tf => tf ++ line_paragraphs line)) cp)
                 sl]) base out).
Proof.
  unfold add_line, line_paragraphs.
  destruct (is_empty (strip line)).
  - rewrite set_shapes_alter_id; [done|]. intros tf. apply app_nil_r.
  - unfold add_paragraph.
    erewrite bind_inr; cycle 1.
    { erewrite bind_inr by apply get_frame_run.
      erewrite bind_inr by (by apply modify_frame_run). reflexivity. }
    erewrite bind_inr by (by apply modify_frame_run).
    erewrite bind_inr by (by apply modify_frame_run).
    rewrite modify_frame_run by done.
    rewrite !set_shapes_alter_compose. do 4 f_equal.
    apply set_shapes_alter_ext. intros sh ->. simpl.
    by rewrite !alter_last.
Qed.

Lemma add_lines_run cp (lines : list pystr) : forall pre sl base out,
  for_ lines (add_line (length pre) cp) (St (pre ++ [sl]) base out) =
  (inr tt,
   St (pre ++ [set_shapes
                 (alter (set_text_frame
                           (fun tf => tf ++ flat_map line_paragraphs lines)) cp)
                 sl]) base out).
Proof.
  induction lines as [|line lines IH]; intros pre sl base out; simpl.
  - rewrite set_shapes_alter_id; [done|]. intros tf. apply app_nil_r.
  - erewrite bind_inr by apply add_line_run.
    rewrite IH, set_shapes_alter_compose. do 4 f_equal.
    apply set_shapes_alter_ext. intros sh _. simpl. by rewrite <- app_assoc.
Qed.

Lemma add_content_slide_run title content sls base out :
  add_content_slide (VStr title) (VStr content) (St sls base out) =
  (inr tt,
   St (sls ++ [content_slide base title content]) base
      (out ++ content_msgs base (VStr title))).
Proof.
  unfold add_content_slide.
  erewrite bind_inr by apply print_run.
  erewrite bind_inr by apply duplicate_base_slide_run.
  erewrite bind_inr; cycle 1.
  { unfold get_shapes, gets. simpl. rewrite lookup_last. reflexivity. }
  cbn [from_option]. unfold content_slide.
  destruct (find_placeholders 0 (shapes (duplicated_slide base)) None None)
    as [tp cp]. cbv iota.
  erewrite bind_inr with (s' := St (sls ++ [set_title title tp (duplicated_slide base)]) base _);
    cycle 1.
  { destruct tp as [j|]; simpl; [|reflexivity].
    erewrite bind_inr by reflexivity. by apply modify_frame_run. }
  erewrite bind_inr with (s' := St (sls ++ [set_body content cp (set_title title tp (duplicated_slide base))]) base _);
    cycle 1.
  { destruct cp as [j|]; simpl; [|reflexivity].
    erewrite bind_inr by (by apply modify_frame_run).
    erewrite bind_inr by reflexivity.
    rewrite add_lines_run, set_shapes_alter_compose. reflexivity. }
  rewrite print_run. unfold content_msgs, duplicate_msgs.
  do 2 f_equal. rewrite <- !app_assoc. simpl. by rewrite <- !app_assoc.
Qed.

(** ** build_from_content *)

Ltac reassoc :=
  unfold content_msgs, duplicate_msgs;
  repeat first [rewrite <- app_assoc | progress simpl]; reflexivity.

Lemma build_slide_missing slide_data key s :
  classify slide_data = Missing key ->
  build_slide slide_data s =
  (inr tt, {| self := self s;
              stdout := stdout s ++ [ERROR_Missing_key (VStr key)] |}).
Proof.
  unfold classify, build_slide, try_except_KeyError, getitem.
  destruct slide_data as [| | | | |l|kvs]; try discriminate.
  unfold mbind, M_bind, bind.
  destruct (dict_get (py "title") kvs) as [t|]; simpl.
  - destruct (dict_get (py "content") kvs) as [c|]; simpl.
    + destruct t; try discriminate; destruct c; discriminate.
    + by intros [= <-].
  - by intros [= <-].
Qed.

Lemma build_slide_complete slide_data title content sls base out :
  classify slide_data = Complete title content ->
  build_slide slide_data (St sls base out) =
  (inr tt,
   St (sls ++ [content_slide base title content]) base
      (out ++ content_msgs base (VStr title))).
Proof.
  unfold classify, build_slide, try_except_KeyError, getitem.
  destruct slide_data as [| | | | |l|kvs]; try discriminate.
  unfold mbind, M_bind, bind.
  destruct (dict_get (py "title") kvs) as [t|]; [|discriminate]; simpl.
  destruct (dict_get (py "content") kvs) as [c|]; [|discriminate]; simpl.
  destruct t; try discriminate; destruct c; try discriminate.
  intros [= -> ->]. by rewrite add_content_slide_run.
Qed.

Lemma build_slide_run slide_data sls base out :
  well_typed slide_data = true ->
  build_slide slide_data (St sls base out) =
  (inr tt,
   St (sls ++ descriptor_slides base slide_data) base
      (out ++ descriptor_msgs base slide_data)).
Proof.
  unfold well_typed, descriptor_slides, descriptor_msgs.
  destruct (classify slide_data) as [t c|k|] eqn:Hc; [| |discriminate];
    intros _.
  - by apply build_slide_complete.
  - rewrite (build_slide_missing _ k) by done. simpl. by rewrite app_nil_r.
Qed.

Lemma build_slides_run (slide_datas : list value) : forall sls base out,
  forallb well_typed slide_datas = true ->
  for_ slide_datas build_slide (St sls base out) =
  (inr tt,
   St (sls ++ flat_map (descriptor_slides base) slide_datas) base
      (out ++ flat_map (descriptor_msgs base) slide_datas)).
Proof.
  induction slide_datas as [|d ds IH]; intros sls base out H; simpl in *.
  - by rewrite !app_nil_r.
  - apply andb_prop in H as [Hd Hds].
    erewrite bind_inr by (by apply build_slide_run).
    rewrite IH by done. by rewrite <- !app_assoc.
Qed.

Lemma build_section_run sec sls base out :
  forallb well_typed (snd sec) = true ->
  build_section (section_item sec) (St sls base out) =
  (inr tt,
   St (sls ++ section_slides base sec) base (out ++ section_msgs base sec)).
Proof.
  intros H. destruct sec as [section ds]. unfold build_section; simpl.
  erewrite bind_inr by apply print_run.
  erewrite bind_inr by apply add_content_slide_run.
  erewrite bind_inr by reflexivity.
  rewrite build_slides_run by done.
  unfold section_slides, section_msgs; simpl.
  do 2 f_equal; reassoc.
Qed.

Lemma build_sections_run (o : outline) : forall sls base out,
  well_typed_outline o = true ->
  for_ (List.map section_item o) build_section (St sls base out) =
  (inr tt,
   St (sls ++ flat_map (section_slides base) o) base
      (out ++ flat_map (section_msgs base) o)).
Proof.
  induction o as [|sec o IH]; intros sls base out H;
    cbn [for_ List.map flat_map] in *.
  - by rewrite !app_nil_r.
  - apply andb_prop in H as [Hd Hds].
    erewrite bind_inr by (by apply (build_section_run sec)).
    rewrite IH by done. by rewrite <- !app_assoc.
Qed.

Lemma build_from_content_run (o : outline) sls base out :
  well_typed_outline o = true ->
  build_from_content (outline_value o) (St sls base out) =
  (inr tt,
   St (sls ++ flat_map (section_slides base) o) base
      (out ++ BUILD_Building :: flat_map (section_msgs base) o
           ++ [BUILD_complete])).
Proof.
  intros H. unfold build_from_content.
  erewrite bind_inr by apply print_run.
  erewrite bind_inr by reflexivity.
  erewrite bind_inr by (by apply build_sections_run).
  rewrite print_run. do 2 f_equal. rewrite <- !app_assoc. reflexivity.
Qed.

(** ** Strings: lines, blank lines and stripping *)





















(** ** The placeholders of a populated slide *)













(** ** The placeholders of a duplicated slide are those of the layout *)

Lemma find_placeholders_app shs shs' : forall i tp cp,
  Forall (fun sh => ph_idx sh = None) shs' ->
  find_placeholders i (shs ++ shs') tp cp = find_placeholders i shs tp cp.
Proof.
  induction shs as [|sh shs IH]; intros i tp cp H; simpl.
  - revert i. induction H as [|sh' shs' Hsh _ IH']; intros i; simpl; [done|].
    rewrite Hsh. apply IH'.
  - destruct (ph_idx sh); [|by apply IH].
    destruct (_ =? _)%N; by apply IH.
Qed.

Lemma copied_not_placeholder (shs : list shape) :
  Forall (fun sh => ph_idx sh = None) (List.filter copied shs).
Proof.
  induction shs as [|sh shs IH]; simpl; [constructor|].
  destruct (copied sh) eqn:Hc; [|done]. constructor; [|done].
  unfold copied, is_placeholder in Hc. destruct (ph_idx sh); [|done].
  by rewrite andb_false_r in Hc.
Qed.



Lemma duplicated_content_placeholder base :
  content_placeholder (duplicated_slide base) =
  content_placeholder (new_slide_of (layout base)).
Proof.
  unfold content_placeholder, duplicated_slide. cbn [shapes]. f_equal.
  apply find_placeholders_app, copied_not_placeholder.
Qed.


(** ** The decoder's loops have fuel enough *)

Lemma skip_ws_length s : length (skip_ws s) <= length s.
Proof.
  induction s as [|c s IH]; simpl; [done|].
  destruct (json_ws c); simpl; lia.
Qed.

Lemma scanstring_shorter (n : nat) : forall s acc str r,
  length s <= n -> scanstring s acc = Some (str, r) -> length r < length s.
Proof.
  induction n as [|n IH]; intros s acc str r Hn H.
  - destruct s; [simpl in H; discriminate|simpl in Hn; lia].
  - destruct s as [|c s1]; [done|]. simpl in H, Hn |- *.
    destruct (c =? QUOTE)%N; [injection H as _ <-; lia|].
    destruct (c =? BACKSLASH)%N.
    + destruct s1 as [|e s2]; [done|].
      destruct (e =? ch "u")%N.
      * destruct s2 as [|h1 [|h2 [|h3 [|h4 r0]]]]; simpl in H;
          try discriminate.
        destruct (hex4 h1 h2 h3 h4) as [u|]; [|done].
        assert (forall a, scanstring r0 a = Some (str, r) ->
                          length r < S (S (S (S (S (S (length r0)))))))
          as Hr0.
        { intros a Ha. apply IH in Ha; simpl in *; lia. }
        destruct r0 as [|b [|e' [|l1 [|l2 [|l3 [|l4 r1]]]]]];
          try (by eapply Hr0).
        destruct (hex4 l1 l2 l3 l4) as [u2|]; [|by eapply Hr0].
        destruct (_ && _); [|by eapply Hr0].
        apply IH in H; simpl in *; lia.
      * destruct (plain_escape e); [|done].
        apply IH in H; simpl in *; lia.
    + destruct (c <=? 31)%N; [done|]. apply IH in H; lia.
Qed.

Lemma strip_prefix_length p : forall s r,
  strip_prefix p s = Some r -> length r + length p = length s.
Proof.
  induction p as [|a p IH]; intros [|b s] r H; simpl in *; try done.
  - injection H as <-. simpl. lia.
  - injection H as <-. simpl. lia.
  - destruct (a =? b)%N; [|done]. apply IH in H. lia.
Qed.

Lemma literal_shorter lit v s w r :
  lit <> EmptyString ->
  literal lit v s = Some (inr (w, r)) -> length r < length s.
Proof.
  unfold literal. intros Hlit H.
  destruct (strip_prefix (py lit) s) as [r'|] eqn:Hp; [|done].
  injection H as _ <-. apply strip_prefix_length in Hp.
  destruct lit; [done|]. simpl in Hp. lia.
Qed.

Lemma span_digits_length s : forall ds r,
  span_digits s = (ds, r) -> length ds + length r = length s.
Proof.
  induction s as [|c s IH]; intros ds r H; simpl in H.
  - by injection H as <- <-.
  - destruct (is_digit c).
    + destruct (span_digits s) as [ds' r'] eqn:Hs. injection H as <- <-.
      specialize (IH _ _ eq_refl). simpl. lia.
    + injection H as <- <-. simpl. lia.
Qed.

Lemma match_number_shorter s v r :
  match_number s = Some (v, r) -> length r < length s.
Proof.
  unfold match_number.
  set (sign := match s with
               | c :: s' => if (c =? ch "-")%N then (true, s') else (false, s)
               | [] => (false, s)
               end).
  assert (length (snd sign) <= length s) as Hsign.
  { unfold sign. destruct s as [|c s']; [done|].
    destruct (c =? ch "-")%N; simpl; lia. }
  destruct sign as [neg s1]. simpl in Hsign.
  set (ip := match s1 with
             | c :: s' =>
                 if (c =? ch "0")%N then Some ([c], s')
                 else if is_digit c then Some (span_digits s1) else None
             | [] => None
             end).
  assert (forall i s2, ip = Some (i, s2) -> length s2 < length s1) as Hip.
  { unfold ip. intros i s2. destruct s1 as [|c s']; [done|].
    destruct (c =? ch "0")%N; [intros [= _ <-]; simpl; lia|].
    destruct (is_digit c) eqn:Hd; [|done]. intros [= H].
    simpl in H. rewrite Hd in H.
    destruct (span_digits s') as [ds' r'] eqn:Hs. injection H as _ <-.
    apply span_digits_length in Hs. simpl. lia. }
  destruct ip as [[i s2]|]; [|done]. specialize (Hip _ _ eq_refl).
  set (fr := match s2 with
             | c :: s' =>
                 if (c =? ch ".")%N then
                   match span_digits s' with
                   | ([], _) => ([], s2)
                   | (ds, r) => (c :: ds, r)
                   end
                 else ([], s2)
             | [] => ([], s2)
             end).
  assert (length (snd fr) <= length s2) as Hfr.
  { unfold fr. destruct s2 as [|c s']; [done|].
    destruct (c =? ch ".")%N; [|done].
    destruct (span_digits s') as [ds' r'] eqn:Hs.
    apply span_digits_length in Hs. destruct ds'; simpl in *; lia. }
  destruct fr as [frac s3]. simpl in Hfr.
  set (ex := match s3 with
             | c :: s' =>
                 if ((c =? ch "e") || (c =? ch "E"))%N then
                   let '(sign, s'') :=
                     match s' with
                     | g :: t =>
                         if ((g =? ch "+") || (g =? ch "-"))%N then ([g], t)
                         else ([], s')
                     | [] => ([], s')
                     end in
                   match span_digits s'' with
                   | ([], _) => ([], s3)
                   | (ds, r) => (c :: sign ++ ds, r)
                   end
                 else ([], s3)
             | [] => ([], s3)
             end).
  assert (length (snd ex) <= length s3) as Hex.
  { unfold ex. destruct s3 as [|c s']; [done|].
    destruct (_ || _)%N; [|done].
    assert (forall sg s'', length s'' <= length s' ->
              length (snd (match span_digits s'' with
                           | ([], _) => ([], c :: s')
                           | (ds, r) => (c :: sg ++ ds, r)
                           end)) <= length (c :: s')) as Haux.
    { intros sg s'' Hle. destruct (span_digits s'') as [ds' r'] eqn:Hs.
      apply span_digits_length in Hs. destruct ds'; simpl in *; lia. }
    destruct s' as [|g t]; [apply (Haux [] []); simpl; lia|].
    destruct (_ || _)%N; [apply (Haux [g] t)|apply (Haux [] (g :: t))];
      simpl; lia. }
  destruct ex as [e s4]. simpl in Hex.
  destruct frac, e; intros [= _ <-]; lia.
Qed.

Lemma scan_atom_shorter s v r :
  scan_atom s = inr (v, r) -> length r < length s.
Proof.
  unfold scan_atom. intros H.
  destruct (literal "null" _ s) eqn:H1;
    [subst; eapply literal_shorter; [|eassumption]; done|].
  destruct (literal "true" _ s) eqn:H2;
    [subst; eapply literal_shorter; [|eassumption]; done|].
  destruct (literal "false" _ s) eqn:H3;
    [subst; eapply literal_shorter; [|eassumption]; done|].
  destruct (literal "NaN" _ s) eqn:H4;
    [subst; eapply literal_shorter; [|eassumption]; done|].
  destruct (literal "Infinity" _ s) eqn:H5;
    [subst; eapply literal_shorter; [|eassumption]; done|].
  destruct (literal "-Infinity" _ s) eqn:H6;
    [subst; eapply literal_shorter; [|eassumption]; done|].
  destruct (match_number s) as [[w r']|] eqn:Hm; [|done].
  injection H as <- <-. by apply (match_number_shorter _ _ _ Hm).
Qed.

Section Loops.
Variable scan : pystr -> exn + value * pystr.
Hypothesis scan_shorter :
  forall s v r, scan s = inr (v, r) -> length r < length s.

Lemma elements_shorter fuel : forall acc s v r,
  elements scan fuel acc s = inr (v, r) -> length r < length s.
Proof.
  induction fuel as [|fuel IH]; intros acc s v r H; simpl in H; [done|].
  destruct (scan s) as [e|[w r0]] eqn:Hs; [done|].
  apply scan_shorter in Hs. pose proof (skip_ws_length r0) as Hw.
  destruct (skip_ws r0) as [|x r1]; [done|]. simpl in Hw.
  destruct (x =? ch "]")%N; [injection H as _ <-; lia|].
  destruct (x =? ch ",")%N; [|done].
  apply IH in H. pose proof (skip_ws_length r1). lia.
Qed.

Lemma members_shorter fuel : forall acc s v r,
  members scan fuel acc s = inr (v, r) -> length r < length s.
Proof.
  induction fuel as [|fuel IH]; intros acc s v r H; simpl in H; [done|].
  destruct s as [|q s1]; [done|]. destruct (q =? QUOTE)%N; [|done].
  destruct (scanstring s1 []) as [[key r0]|] eqn:Hk; [|done].
  apply (scanstring_shorter (length s1)) in Hk; [|done].
  pose proof (skip_ws_length r0) as Hw0.
  destruct (skip_ws r0) as [|colon r1]; [done|]. simpl in Hw0.
  destruct (colon =? ch ":")%N; [|done].
  destruct (scan (skip_ws r1)) as [e|[w r2]] eqn:Hs; [done|].
  apply scan_shorter in Hs. pose proof (skip_ws_length r1) as Hw1.
  pose proof (skip_ws_length r2) as Hw2.
  destruct (skip_ws r2) as [|x r3]; [done|]. simpl in Hw2 |- *.
  destruct (x =? ch "}")%N; [injection H as _ <-; lia|].
  destruct (x =? ch ",")%N; [|done].
  apply IH in H. pose proof (skip_ws_length r3). lia.
Qed.

(** With more fuel than input, the loops give the same result whatever
    the fuel: they never stop for want of it. *)
Lemma elements_fuel fuel : forall fuel' acc s,
  length s < fuel -> length s < fuel' ->
  elements scan fuel acc s = elements scan fuel' acc s.
Proof.
  induction fuel as [|fuel IH]; intros [|fuel'] acc s Hf Hf'; try lia.
  simpl. destruct (scan s) as [e|[w r0]] eqn:Hs; [done|].
  apply scan_shorter in Hs. pose proof (skip_ws_length r0) as Hw.
  destruct (skip_ws r0) as [|x r1]; [done|]. simpl in Hw.
  destruct (x =? ch "]")%N; [done|]. destruct (x =? ch ",")%N; [|done].
  pose proof (skip_ws_length r1). apply IH; lia.
Qed.

Lemma members_fuel fuel : forall fuel' acc s,
  length s < fuel -> length s < fuel' ->
  members scan fuel acc s = members scan fuel' acc s.
Proof.
  induction fuel as [|fuel IH]; intros [|fuel'] acc s Hf Hf'; try lia.
  simpl. destruct s as [|q s1]; [done|]. destruct (q =? QUOTE)%N; [|done].
  destruct (scanstring s1 []) as [[key r0]|] eqn:Hk; [|done].
  apply (scanstring_shorter (length s1)) in Hk; [|done].
  pose proof (skip_ws_length r0) as Hw0.
  destruct (skip_ws r0) as [|colon r1]; [done|]. simpl in Hw0.
  destruct (colon =? ch ":")%N; [|done].
  destruct (scan (skip_ws r1)) as [e|[w r2]] eqn:Hs; [done|].
  apply scan_shorter in Hs. pose proof (skip_ws_length r1) as Hw1.
  pose proof (skip_ws_length r2) as Hw2.
  destruct (skip_ws r2) as [|x r3]; [done|]. simpl in Hw2, Hf, Hf'.
  destruct (x =? ch "}")%N; [done|]. destruct (x =? ch ",")%N; [|done].
  pose proof (skip_ws_length r3). apply IH; lia.
Qed.
End Loops.

Arguments elements : simpl never.
Arguments members : simpl never.

(** A value read takes at least one character. *)
Lemma scan_once_shorter depth : forall s v r,
  scan_once depth s = inr (v, r) -> length r < length s.
Proof.
  induction depth as [|d IH]; intros s v r H.
  - destruct s as [|c s']; [done|]. simpl in H.
    destruct (c =? QUOTE)%N.
    { destruct (scanstring s' []) as [[str r0]|] eqn:Hk; [|done].
      injection H as _ <-.
      apply (scanstring_shorter (length s')) in Hk; simpl; lia. }
    destruct (c =? ch "[")%N; [done|]. destruct (c =? ch "{")%N; [done|].
    by apply (scan_atom_shorter _ _ _ H).
  - destruct s as [|c s']; [done|]. simpl in H.
    destruct (c =? QUOTE)%N.
    { destruct (scanstring s' []) as [[str r0]|] eqn:Hk; [|done].
      injection H as _ <-.
      apply (scanstring_shorter (length s')) in Hk; simpl; lia. }
    pose proof (skip_ws_length s') as Hw.
    destruct (c =? ch "[")%N.
    { destruct (skip_ws s') as [|x r0]; [done|]. simpl in Hw |- *.
      destruct (x =? ch "]")%N; [injection H as _ <-; lia|].
      apply (elements_shorter _ IH) in H. simpl in H. lia. }
    destruct (c =? ch "{")%N.
    { destruct (skip_ws s') as [|x r0]; [done|]. simpl in Hw |- *.
      destruct (x =? ch "}")%N; [injection H as _ <-; lia|].
      apply (members_shorter _ IH) in H. simpl in H. lia. }
    by apply (scan_atom_shorter _ _ _ H).
Qed.

(** The fuel [scan_once] gives its loops is enough: more changes
    nothing. *)
Lemma scan_once_elements_fuel depth fuel acc s :
  length s < fuel ->
  elements (scan_once depth) fuel acc s =
  elements (scan_once depth) (S (length s)) acc s.
Proof.
  intros H. apply elements_fuel; [apply scan_once_shorter|done|lia].
Qed.

Lemma scan_once_members_fuel depth fuel acc s :
  length s < fuel ->
  members (scan_once depth) fuel acc s =
  members (scan_once depth) (S (length s)) acc s.
Proof.
  intros H. apply members_fuel; [apply scan_once_shorter|done|lia].
Qed.

(** ** The base slide stays the first slide *)

(** [self.base_slide] is the object [self.prs.slides[0]].  The builder
    keeps the two in step: it only appends slides and writes to the
    slide it has just appended. *)
Lemma init_base_slide_is_first env fs template_path out b out' :
  PresentationBuilder_init env fs template_path out = (inr b, out') ->
  slides (prs b) !! 0 = Some (base_slide b).
Proof.
  unfold PresentationBuilder_init.
  destruct (Presentation env fs template_path) as [e|p]; [done|].
  destruct (slides p !! 0) as [sl|] eqn:H0; [|done].
  by intros [= <- _].
Qed.

Lemma build_keeps_base_slide_first (o : outline) (s s' : state) :
  well_typed_outline o = true ->
  slides (prs (self s)) !! 0 = Some (base_slide (self s)) ->
  build_from_content (outline_value o) s = (inr tt, s') ->
  slides (prs (self s')) !! 0 = Some (base_slide (self s')).
Proof.
  destruct s as [[[sls] base] out]. cbn [self prs slides base_slide].
  intros Hwt H0 Hrun.
  pose proof (build_from_content_run o sls base out Hwt) as Hr.
  unfold St in Hr. rewrite Hr in Hrun.
  injection Hrun as <-. cbn [self prs slides base_slide].
  rewrite lookup_app_l; [done|]. by apply lookup_lt_Some in H0.
Qed.

(** ** A whole request *)

Example generate_ppt_example :
  exists p out,
    generate_ppt example_env request_ok =
      (inr (FileResponse (Some (Package p)) true
              (py "Generated_Presentation.pptx")), out) /\
    length (slides p) = 4 /\
    List.filter (fun m => match m with ERROR_Missing_key _ => true
                                     | _ => false end) out
    = [ERROR_Missing_key (VStr (py "content"))] /\
    last out = Some RESPONSE_Sending.
Proof. vm_compute. eexists _, _. repeat split. Qed.

Example health_check_example :
  health_check =
    (inr (JsonResponse [(py "status", py "Service is healthy")] 200),
     [HEALTH_received]).
Proof. reflexivity. Qed.

(** * The claims *)

(** C8. [duplicate_base_slide] appends one new slide that uses the base
    slide's layout; after the placeholders the layout gives it, the new
    slide holds copies of exactly those shapes of the base slide that
    are neither grouped shapes nor placeholders, in their order.  One
    warning is printed for every grouped shape, none for a placeholder;
    the slides already there and the base slide are left as they
    were. *)
Theorem duplicate_base_slide_copies (s : state) :
  let base := base_slide (self s) in
  exists s',
    duplicate_base_slide s = (inr (length (slides (prs (self s)))), s') /\
    slides (prs (self s')) =
      slides (prs (self s))
      ++ [ {| layout := layout base;
              shapes :=
                shapes (new_slide_of (layout base))
                ++ List.filter
                     (fun sh => negb (is_GROUP (shape_type sh))
                                && negb (is_placeholder sh))
                     (shapes base) |} ] /\
    base_slide (self s') = base /\
    stdout s' =
      stdout s
      ++ SLIDE_Duplicating
         :: List.map (fun _ => WARN_Skipping_grouped_shape)
                     (List.filter (fun sh => is_GROUP (shape_type sh))
                                  (shapes base))
         ++ [SLIDE_Duplicated].
Proof.
  destruct s as [[[sls] base] out]. cbn [self prs slides base_slide stdout].
  eexists. split; [apply (duplicate_base_slide_run sls base out)|].
  by repeat split.
Qed.







(** ** The claims about build_from_content *)


Lemma lacks_key_missing d :
  lacks_key d = true ->
  exists key, classify d = Missing key
              /\ (key = py "title" \/ key = py "content").
Proof.
  unfold lacks_key, classify. destruct d as [| | | | |l|kvs]; try done.
  destruct (dict_get (py "title") kvs) as [t|].
  - destruct (dict_get (py "content") kvs) as [c|]; [done|]. eauto.
  - eauto.
Qed.












(** C10. A descriptor that is a JSON object without ['title'] or without
    ['content'] leaves the builder, and so the presentation and every
    slide of it, exactly as it was: the key error is raised before
    [add_content_slide] is entered, and the only effect is the line
    printed for the missing key. *)
Theorem skipped_descriptor_changes_nothing (slide_data : value) (s : state) :
  lacks_key slide_data = true ->
  exists key,
    (key = py "title" \/ key = py "content") /\
    build_slide slide_data s =
      (inr tt, {| self := self s;
                  stdout := stdout s ++ [ERROR_Missing_key (VStr key)] |}).
Proof.
  intros (key & Hc & Hkey)%lacks_key_missing.
  exists key. split; [done|]. by apply build_slide_missing.
Qed.

Lemma skipped_descriptor_changes_nothing_witness :
  exists key,
    (key = py "title" \/ key = py "content") /\
    build_slide (VDict [(py "title", VStr (py "Welcome"))]) example_builder =
      (inr tt, {| self := self example_builder;
                  stdout := stdout example_builder
                            ++ [ERROR_Missing_key (VStr key)] |}).
Proof.
  apply (skipped_descriptor_changes_nothing
           (VDict [(py "title", VStr (py "Welcome"))]) example_builder).
  reflexivity.
Defined.






(** ** The claims about the handler *)

Lemma init_is_seen env fs template_path out :
  builder_invoked (snd (PresentationBuilder_init env fs template_path out))
  = true.
Proof.
  unfold PresentationBuilder_init, builder_invoked.
  destruct (Presentation env fs template_path) as [e|p]; simpl.
  - rewrite existsb_app. simpl. apply orb_true_r.
  - destruct (slides p !! 0); simpl; rewrite !existsb_app; simpl;
      rewrite ?orb_true_r; reflexivity.
Qed.

Lemma fs_read_written path d fs : fs_read path (fs_write path d fs) = Some d.
Proof. unfold fs_write. simpl. by rewrite bool_decide_eq_true_2. Qed.

Lemma json_load_written env path bytes fs :
  json_load env (fs_write path (Raw bytes) fs) path =
  match utf8_decode (bytes_N bytes) with
  | Some text => json_loads (recursion_limit env) (universal_newlines text)
  | None => inl UnicodeDecodeError
  end.
Proof. unfold json_load. by rewrite fs_read_written. Qed.

(** C3. When the request has no ['template'] file part, or no
    ['content'] file part, the handler answers with status 400 and a
    JSON object whose ['error'] entry says that both files are
    required; it prints the two lines of that path and none of the
    builder's. *)
Theorem missing_file_part_is_400 (env : environment) (req : request) :
  files_get (py "template") (files req) = None
  \/ files_get (py "content") (files req) = None ->
  generate_ppt env req =
    (inr (JsonResponse
            [(py "error", py "Both template and content files are required.")]
            400),
     [REQUEST_received; ERROR_Missing_files]) /\
  builder_invoked (snd (generate_ppt env req)) = false.
Proof.
  intros H. unfold generate_ppt.
  destruct (files_get (py "template") (files req)) as [t|];
    destruct (files_get (py "content") (files req)) as [c|];
    try (by split); by destruct H.
Qed.

Lemma missing_file_part_is_400_witness :
  generate_ppt example_env request_without_content =
    (inr (JsonResponse
            [(py "error", py "Both template and content files are required.")]
            400),
     [REQUEST_received; ERROR_Missing_files]) /\
  builder_invoked (snd (generate_ppt example_env request_without_content))
  = false.
Proof.
  apply (missing_file_part_is_400 example_env request_without_content).
  right. reflexivity.
Defined.

(** C4, as amended.  When the ['content'] file part is valid UTF-8 text
    that the JSON decoder rejects with a decode error, the handler
    answers with status 400 and a JSON object with an ['error'] entry,
    and prints none of the builder's lines. *)
Theorem invalid_json_is_400 (env : environment) (req : request)
    (content_file : FileStorage) (text : pystr) :
  files_get (py "content") (files req) = Some content_file ->
  utf8_decode (bytes_N (stream content_file)) = Some text ->
  json_loads (recursion_limit env) (universal_newlines text)
  = inl JSONDecodeError ->
  exists message,
    (message = py "Both template and content files are required."
     \/ message = py "Invalid JSON content file.") /\
    fst (generate_ppt env req) = inr (error_object message) /\
    builder_invoked (snd (generate_ppt env req)) = false.
Proof.
  intros Hc Hutf Hjson. unfold generate_ppt. rewrite Hc.
  destruct (files_get (py "template") (files req)) as [t|];
    [|eexists; split; [by left|done]].
  destruct (negb (FileStorage_bool t) || negb (FileStorage_bool content_file));
    [eexists; split; [by left|done]|].
  cbv zeta. rewrite json_load_written, Hutf, Hjson.
  eexists; split; [by right|done].
Qed.

Lemma invalid_json_is_400_witness :
  exists message,
    (message = py "Both template and content files are required."
     \/ message = py "Invalid JSON content file.") /\
    fst (generate_ppt example_env request_bad_json)
    = inr (error_object message) /\
    builder_invoked (snd (generate_ppt example_env request_bad_json)) = false.
Proof.
  apply (invalid_json_is_400 example_env request_bad_json
           {| filename := py "content.json";
              stream := [x5b; x31; x2c; x5d] |}
           (py "[1,]")); reflexivity.
Defined.

(** C4, as stated, fails: a content that is not valid UTF-8 is not
    parseable as JSON, and the handler does not answer it at all; the
    decoding error leaves the handler uncaught. *)
Lemma content_not_utf8_escapes_handler :
  utf8_decode (bytes_N [xff]) = None /\
  generate_ppt example_env request_not_utf8 =
    (inl UnicodeDecodeError,
     [REQUEST_received; TEMP_created (py "/tmp/tmpk3v9x1"); FILE_Saving;
      FILE_Reading]).
Proof. split; vm_compute; reflexivity. Qed.

(** * Beyond the claims: definitions *)



Definition is_dict (v : value) : bool :=
  match v with VDict _ => true | _ => false end.

(** [s'] has the slides, the base slide and the output of [s], and
    possibly more slides and more output after them. *)
Definition extends (s s' : state) : Prop :=
  base_slide (self s') = base_slide (self s) /\
  (exists more, slides (prs (self s')) = slides (prs (self s)) ++ more) /\
  (exists out, stdout s' = stdout s ++ out).

(** A computation that, whatever it returns or raises, only appends. *)
Definition only_appends {A} (c : M A) : Prop :=
  forall s, extends s (snd (c s)).




(** The request carries both file parts, each with a file name. *)
Definition both_parts (req : request) (template content_file : FileStorage)
  : Prop :=
  files_get (py "template") (files req) = Some template /\
  files_get (py "content") (files req) = Some content_file /\
  FileStorage_bool template = true /\
  FileStorage_bool content_file = true.

(** What [json.load] makes of the bytes of an uploaded content file. *)
Definition read_content (env : environment) (content_file : FileStorage)
  : exn + value :=
  match utf8_decode (bytes_N (stream content_file)) with
  | Some text => json_loads (recursion_limit env) (universal_newlines text)
  | None => inl UnicodeDecodeError
  end.

(** What the handler has printed when it makes the builder. *)
Definition printed_before_build (env : environment) : list msg :=
  [REQUEST_received; TEMP_created (tmpdir env); FILE_Saving; FILE_Reading;
   PROCESS_Generating;
   INIT_Loading_template (os_path_join (tmpdir env) (py "template.pptx"))].

(** An example: a template without slides, a content that is a JSON
    array, a content that starts with a byte order mark. *)
Definition env_no_slides : environment :=
  {| tmpdir := py "/tmp/tmpk3v9x1";
     open_package := fun _ => inr {| slides := [] |};
     recursion_limit := 900 |}.

Definition env_shallow : environment :=
  {| tmpdir := py "/tmp/tmpk3v9x1";
     open_package := open_package example_env;
     recursion_limit := 2 |}.

Definition template_part : FileStorage :=
  {| filename := py "template.pptx"; stream := [x50; x4b] |}.

Definition broken_template_part : FileStorage :=
  {| filename := py "template.pptx"; stream := [x00] |}.

Definition content_part (bytes : list byte) : FileStorage :=
  {| filename := py "content.json"; stream := bytes |}.

Definition request_of (template content_file : FileStorage) : request :=
  {| files := [(py "template", template); (py "content", content_file)] |}.

(** A layout with a title placeholder only, one with no placeholder that
    is cloned, and one with two body placeholders. *)
Definition title_only : slide_layout :=
  {| layout_name := py "Title Only";
     layout_placeholders := [ {| lph_type := PH_TITLE; lph_idx := 0 |} ] |}.



Definition base_with (l : slide_layout) : slide :=
  {| layout := l; shapes := shapes example_base |}.

Definition builder_with (l : slide_layout) : state :=
  St [base_with l] (base_with l) [].

(** * Beyond the claims: properties *)

(** ** add_content_slide on arbitrary values *)

Lemma get_shapes_run pre sl base out :
  get_shapes (length pre) (St (pre ++ [sl]) base out) =
  (inr (shapes sl), St (pre ++ [sl]) base out).
Proof. unfold get_shapes, gets. simpl. by rewrite lookup_last. Qed.

(** The run of [add_content_slide] up to the two placeholders. *)
Lemma add_content_slide_unfold title content sls base out :
  add_content_slide title content (St sls base out) =
  (match title_placeholder (duplicated_slide base) with
   | Some tp =>
       t ← str_of TypeError title;
       modify_frame (length sls) tp
         (fun _ => paragraphs_of_text (truncated_title t))
   | None => mret tt
   end;;
   match content_placeholder (duplicated_slide base) with
   | Some cp =>
       modify_frame (length sls) cp TextFrame_clear;;
       c ← str_of AttributeError content;
       for_ (split_nl (strip c)) (add_line (length sls) cp)
   | None => mret tt
   end;;
   print (CONTENT_Slide_added title))
    (St (sls ++ [duplicated_slide base]) base
        (out ++ CONTENT_Adding_slide title :: duplicate_msgs base)).
Proof.
  unfold add_content_slide.
  erewrite bind_inr by apply print_run.
  erewrite bind_inr by apply duplicate_base_slide_run.
  erewrite bind_inr by apply get_shapes_run.
  unfold title_placeholder, content_placeholder.
  destruct (find_placeholders 0 (shapes (duplicated_slide base)) None None)
    as [tp cp]. cbn [fst snd].
  unfold duplicate_msgs. by rewrite <- app_assoc.
Qed.



(** Without a body placeholder the content is never looked at. *)
Lemma add_content_slide_no_body title content sls base out :
  content_placeholder (duplicated_slide base) = None ->
  add_content_slide title content (St sls base out) =
  add_content_slide title VNone (St sls base out).
Proof. intros Hcp. by rewrite !add_content_slide_unfold, Hcp. Qed.


(** *** What is done to the slide just appended *)

Section OnLast.
Variable n : nat.

(** A computation that writes to slide [n], the last one, and keeps its
    layout. *)
Definition on_last {A} (c : M A) : Prop :=
  forall pre sl base out, length pre = n ->
    exists r sl' out',
      c (St (pre ++ [sl]) base out) = (r, St (pre ++ [sl']) base (out ++ out'))
      /\ layout sl' = layout sl.

Lemma on_last_ret {A} (a : A) : on_last (mret a).
Proof.
  intros pre sl base out _. exists (inr a), sl, [].
  by rewrite app_nil_r.
Qed.

Lemma on_last_raise {A} (e : exn) : on_last (@raise A e).
Proof.
  intros pre sl base out _. exists (inl e), sl, [].
  by rewrite app_nil_r.
Qed.

Lemma on_last_print m : on_last (print m).
Proof. intros pre sl base out _. by exists (inr tt), sl, [m]. Qed.

Lemma on_last_bind {A B} (c : M A) (k : A -> M B) :
  on_last c -> (forall a, on_last (k a)) -> on_last (c ≫= k).
Proof.
  intros Hc Hk pre sl base out Hn.
  destruct (Hc pre sl base out Hn) as ([e|a] & sl1 & out1 & Hrun & Hl).
  - exists (inl e), sl1, out1. split; [by apply bind_inl|done].
  - destruct (Hk a pre sl1 base (out ++ out1) Hn)
      as (r & sl2 & out2 & Hrun2 & Hl2).
    exists r, sl2, (out1 ++ out2). split.
    + erewrite bind_inr by exact Hrun. by rewrite app_assoc.
    + congruence.
Qed.

Lemma on_last_for {A} (xs : list A) (body : A -> M unit) :
  (forall x, on_last (body x)) -> on_last (for_ xs body).
Proof.
  intros Hb. induction xs as [|x xs IH]; simpl.
  - apply (on_last_ret tt).
  - apply on_last_bind; [apply Hb|]. intros _. exact IH.
Qed.

Lemma on_last_modify_frame sh f : on_last (modify_frame n sh f).
Proof.
  intros pre sl base out Hn. eexists (inr tt), _, [].
  rewrite app_nil_r. split; [by apply modify_frame_run|].
  by destruct sl.
Qed.

Lemma on_last_get_frame sh : on_last (get_frame n sh).
Proof.
  intros pre sl base out <-. eexists _, sl, [].
  rewrite app_nil_r. split; [apply get_frame_run|done].
Qed.

Lemma on_last_str_of e v : on_last (str_of e v).
Proof. destruct v; try apply on_last_raise. apply on_last_ret. Qed.

Lemma on_last_add_line sh line : on_last (add_line n sh line).
Proof.
  unfold add_line. destruct (is_empty (strip line)); [apply on_last_ret|].
  unfold add_paragraph.
  repeat first
    [ apply on_last_bind; [|intros ?]
    | apply on_last_modify_frame
    | apply on_last_get_frame
    | apply on_last_ret ].
Qed.
End OnLast.

(** In every outcome the call leaves exactly one new slide behind. *)
Lemma add_content_slide_one_slide title content sls base out :
  exists r new out',
    add_content_slide title content (St sls base out) =
    (r, St (sls ++ [new]) base (out ++ out')) /\
    layout new = layout base.
Proof.
  rewrite add_content_slide_unfold.
  assert (on_last (length sls)
            (match title_placeholder (duplicated_slide base) with
             | Some tp =>
                 t ← str_of TypeError title;
                 modify_frame (length sls) tp
                   (fun _ => paragraphs_of_text (truncated_title t))
             | None => mret tt
             end;;
             match content_placeholder (duplicated_slide base) with
             | Some cp =>
                 modify_frame (length sls) cp TextFrame_clear;;
                 c ← str_of AttributeError content;
                 for_ (split_nl (strip c)) (add_line (length sls) cp)
             | None => mret tt
             end;;
             print (CONTENT_Slide_added title))) as H.
  { apply on_last_bind.
    - destruct (title_placeholder _); [|apply on_last_ret].
      apply on_last_bind; [apply on_last_str_of|].
      intros ?. apply on_last_modify_frame.
    - intros _. apply on_last_bind; [|intros _; apply on_last_print].
      destruct (content_placeholder _); [|apply on_last_ret].
      apply on_last_bind; [apply on_last_modify_frame|]. intros _.
      apply on_last_bind; [apply on_last_str_of|]. intros c.
      apply on_last_for. intros line. apply on_last_add_line. }
  destruct (H sls (duplicated_slide base) base
              (out ++ CONTENT_Adding_slide title :: duplicate_msgs base)
              eq_refl) as (r & new & out' & Hrun & Hl).
  exists r, new, (CONTENT_Adding_slide title :: duplicate_msgs base ++ out').
  split; [|done]. rewrite Hrun. do 2 f_equal.
  rewrite <- app_assoc. reflexivity.
Qed.

(** ** The builder only appends *)

Lemma extends_refl s : extends s s.
Proof.
  repeat split; [by exists []; rewrite app_nil_r..].
Qed.

Lemma extends_trans s1 s2 s3 : extends s1 s2 -> extends s2 s3 -> extends s1 s3.
Proof.
  intros (Hb & [m1 Hm1] & [o1 Ho1]) (Hb' & [m2 Hm2] & [o2 Ho2]).
  split; [congruence|]. split.
  - exists (m1 ++ m2). by rewrite Hm2, Hm1, app_assoc.
  - exists (o1 ++ o2). by rewrite Ho2, Ho1, app_assoc.
Qed.

Lemma only_appends_ret {A} (a : A) : only_appends (mret a).
Proof. intros s. apply extends_refl. Qed.

Lemma only_appends_raise {A} (e : exn) : only_appends (@raise A e).
Proof. intros s. apply extends_refl. Qed.

Lemma only_appends_print m : only_appends (print m).
Proof.
  intros s. split; [done|]. split; [|by exists [m]].
  exists []. by rewrite app_nil_r.
Qed.

Lemma only_appends_bind {A B} (c : M A) (k : A -> M B) :
  only_appends c -> (forall a, only_appends (k a)) -> only_appends (c ≫= k).
Proof.
  intros Hc Hk s. specialize (Hc s).
  unfold mbind, M_bind, bind. destruct (c s) as [[e|a] s1]; [exact Hc|].
  eapply extends_trans; [exact Hc|]. apply Hk.
Qed.

Lemma only_appends_for {A} (xs : list A) (body : A -> M unit) :
  (forall x, only_appends (body x)) -> only_appends (for_ xs body).
Proof.
  intros Hb. induction xs as [|x xs IH]; simpl.
  - apply (only_appends_ret tt).
  - apply only_appends_bind; [apply Hb|]. intros _. exact IH.
Qed.

Lemma only_appends_try (c : M unit) (h : value -> M unit) :
  only_appends c -> (forall e, only_appends (h e)) ->
  only_appends (try_except_KeyError c h).
Proof.
  intros Hc Hh s. specialize (Hc s). unfold try_except_KeyError.
  destruct (c s) as [[e|[]] s1]; [|exact Hc].
  destruct e; try exact Hc.
  eapply extends_trans; [exact Hc|]. apply Hh.
Qed.

Lemma only_appends_add_content_slide title content :
  only_appends (add_content_slide title content).
Proof.
  intros [[[sls] base] out].
  destruct (add_content_slide_one_slide title content sls base out)
    as (r & new & out' & Hrun & _).
  change ({| self := {| prs := {| slides := sls |}; base_slide := base |};
             stdout := out |}) with (St sls base out).
  rewrite Hrun. split; [done|]. split; by eexists.
Qed.

Lemma only_appends_getitem v k : only_appends (getitem v k).
Proof.
  destruct v; try apply only_appends_raise. simpl.
  destruct (dict_get k kvs); [apply only_appends_ret|apply only_appends_raise].
Qed.

Lemma only_appends_build_slide slide_data : only_appends (build_slide slide_data).
Proof.
  apply only_appends_try; [|intros e; apply only_appends_print].
  apply only_appends_bind; [apply only_appends_getitem|]. intros title.
  apply only_appends_bind; [apply only_appends_getitem|]. intros content.
  apply only_appends_add_content_slide.
Qed.

Lemma only_appends_build_section item : only_appends (build_section item).
Proof.
  destruct item as [section slides]. unfold build_section.
  apply only_appends_bind; [apply only_appends_print|]. intros _.
  apply only_appends_bind; [apply only_appends_add_content_slide|]. intros _.
  apply only_appends_bind.
  - destruct slides; try apply only_appends_raise; apply only_appends_ret.
  - intros ds. apply only_appends_for, only_appends_build_slide.
Qed.

Lemma only_appends_build_from_content content_dict :
  only_appends (build_from_content content_dict).
Proof.
  unfold build_from_content.
  apply only_appends_bind; [apply only_appends_print|]. intros _.
  apply only_appends_bind.
  - destruct content_dict; try apply only_appends_raise; apply only_appends_ret.
  - intros its. apply only_appends_bind; [|intros _; apply only_appends_print].
    apply only_appends_for, only_appends_build_section.
Qed.

(** ** The handler past its two guards *)

(** Joining a directory and a relative name puts the same prefix before
    every name. *)
Lemma os_path_join_prefix (a : pystr) :
  exists pre, forall x y, x <> 47%N -> os_path_join a (x :: y) = pre ++ x :: y.
Proof.
  assert (forall (z : N) (w R : pystr),
            z <> 47%N ->
            match z :: w with 47%N :: _ => z :: w | _ => R end = R) as Hb.
  { intros z w R Hz. destruct z as [|p]; [done|].
    repeat (destruct p as [p|p|]; try done). }
  unfold os_path_join. destruct (rev a) as [|c r].
  - exists []. intros x y Hx. by rewrite Hb.
  - destruct (decide (c = 47%N)) as [->|Hc].
    + exists a. intros x y Hx. by rewrite Hb.
    + exists (a ++ [47%N]). intros x y Hx. rewrite Hb by done.
      rewrite <- app_assoc. simpl.
      destruct c as [|p]; [done|].
      repeat (destruct p as [p|p|]; try done).
Qed.

Lemma template_path_not_content_path (d : pystr) :
  os_path_join d (py "content.json") <> os_path_join d (py "template.pptx").
Proof.
  destruct (os_path_join_prefix d) as [pre Hpre].
  change (py "content.json") with (99%N :: py "ontent.json").
  change (py "template.pptx") with (116%N :: py "emplate.pptx").
  rewrite !Hpre by done. intros H. apply app_inv_head in H. discriminate.
Qed.

Lemma save_run output_path fs s :
  save output_path fs s =
  (inr (fs_write output_path (Package (prs (self s))) fs),
   {| self := self s;
      stdout := stdout s ++ [SAVE_Saving output_path; SAVE_complete] |}).
Proof.
  destruct s as [b out]. unfold save, mbind, M_bind, bind, print, gets.
  cbn. by rewrite <- app_assoc.
Qed.

(** What the handler does once both parts are there and the content has
    been read: the builder is made from the template's bytes, the
    outline is built and the document saved. *)
Lemma generate_ppt_past_guards env req template content_file text content :
  files_get (py "template") (files req) = Some template ->
  files_get (py "content") (files req) = Some content_file ->
  FileStorage_bool template = true ->
  FileStorage_bool content_file = true ->
  utf8_decode (bytes_N (stream content_file)) = Some text ->
  json_loads (recursion_limit env) (universal_newlines text) = inr content ->
  generate_ppt env req =
  let out := [REQUEST_received; TEMP_created (tmpdir env); FILE_Saving;
              FILE_Reading; PROCESS_Generating;
              INIT_Loading_template
                (os_path_join (tmpdir env) (py "template.pptx"))] in
  match open_package env (stream template) with
  | inl e => (inl e, out)
  | inr p =>
      match slides p !! 0 with
      | None => (inl IndexError, out)
      | Some base =>
          match build_from_content content
                  {| self := {| prs := p; base_slide := base |};
                     stdout := out ++ [INIT_Base_slide_loaded] |} with
          | (inl e, s) => (inl e, stdout s)
          | (inr _, s) =>
              (inr (FileResponse (Some (Package (prs (self s)))) true
                      (py "Generated_Presentation.pptx")),
               stdout s
               ++ [SAVE_Saving (os_path_join (tmpdir env) (py "output.pptx"));
                   SAVE_complete; RESPONSE_Sending])
          end
      end
  end.
Proof.
  intros Ht Hc Htb Hcb Hutf Hjson. unfold generate_ppt.
  rewrite Ht, Hc, Htb, Hcb. cbn [negb orb]. cbv zeta.
  rewrite json_load_written, Hutf, Hjson.
  unfold PresentationBuilder_init, Presentation.
  assert (fs_read (os_path_join (tmpdir env) (py "template.pptx"))
            (fs_write (os_path_join (tmpdir env) (py "content.json"))
               (Raw (stream content_file))
               (fs_write (os_path_join (tmpdir env) (py "template.pptx"))
                  (Raw (stream template)) []))
          = Some (Raw (stream template))) as ->.
  { unfold fs_write at 1. cbn [fs_read].
    rewrite bool_decide_eq_false_2 by apply template_path_not_content_path.
    apply fs_read_written. }
  destruct (open_package env (stream template)) as [e|p]; [done|].
  destruct (slides p !! 0) as [base|]; [|done].
  unfold build_and_save.
  unfold mbind at 1, M_bind at 1, bind at 1.
  destruct (build_from_content content _) as [[e|[]] s]; [done|].
  rewrite save_run, fs_read_written. cbn [stdout].
  by rewrite <- app_assoc.
Qed.

Lemma generate_ppt_read_error env req template content_file e :
  both_parts req template content_file ->
  read_content env content_file = inl e ->
  generate_ppt env req =
  match e with
  | JSONDecodeError =>
      (inr (error_object (py "Invalid JSON content file.")),
       [REQUEST_received; TEMP_created (tmpdir env); FILE_Saving;
        FILE_Reading; ERROR_JSON_decode_failed])
  | _ =>
      (inl e,
       [REQUEST_received; TEMP_created (tmpdir env); FILE_Saving;
        FILE_Reading])
  end.
Proof.
  intros (Ht & Hc & Htb & Hcb) Hread. unfold generate_ppt.
  rewrite Ht, Hc, Htb, Hcb. cbn [negb orb]. cbv zeta.
  rewrite json_load_written. fold (read_content env content_file).
  rewrite Hread. by destruct e.
Qed.

Lemma generate_ppt_builds env req template content_file content :
  both_parts req template content_file ->
  read_content env content_file = inr content ->
  generate_ppt env req =
  match open_package env (stream template) with
  | inl e => (inl e, printed_before_build env)
  | inr p =>
      match slides p !! 0 with
      | None => (inl IndexError, printed_before_build env)
      | Some base =>
          match build_from_content content
                  {| self := {| prs := p; base_slide := base |};
                     stdout := printed_before_build env
                               ++ [INIT_Base_slide_loaded] |} with
          | (inl e, s) => (inl e, stdout s)
          | (inr _, s) =>
              (inr (FileResponse (Some (Package (prs (self s)))) true
                      (py "Generated_Presentation.pptx")),
               stdout s
               ++ [SAVE_Saving (os_path_join (tmpdir env) (py "output.pptx"));
                   SAVE_complete; RESPONSE_Sending])
          end
      end
  end.
Proof.
  intros (Ht & Hc & Htb & Hcb) Hread. unfold read_content in Hread.
  destruct (utf8_decode _) as [text|] eqn:Hutf; [|done].
  by apply (generate_ppt_past_guards env req template content_file text).
Qed.

(** ** The handler: beyond the two error answers *)



(** X2. A file part that is there but has an empty file name counts as
    missing: the handler answers 400 with the message that both files
    are required, and prints none of the builder's lines. *)
Theorem empty_file_name_is_400 (env : environment) (req : request)
    (part : FileStorage) :
  files_get (py "template") (files req) = Some part
  \/ files_get (py "content") (files req) = Some part ->
  filename part = [] ->
  generate_ppt env req =
    (inr (error_object (py "Both template and content files are required.")),
     [REQUEST_received; ERROR_Missing_files]).
Proof.
  intros H Hname. unfold generate_ppt.
  destruct (files_get (py "template") (files req)) as [t|] eqn:Ht;
    destruct (files_get (py "content") (files req)) as [c|] eqn:Hc;
    try done.
  destruct H as [[= ->]|[= ->]]; unfold FileStorage_bool; rewrite Hname; cbn.
  - done.
  - by rewrite orb_true_r.
Qed.

Lemma empty_file_name_is_400_witness :
  generate_ppt example_env
    (request_of template_part {| filename := []; stream := [x7b; x7d] |}) =
    (inr (error_object (py "Both template and content files are required.")),
     [REQUEST_received; ERROR_Missing_files]).
Proof.
  apply (empty_file_name_is_400 example_env _
           {| filename := []; stream := [x7b; x7d] |});
    [right|]; reflexivity.
Defined.

(** X3. A template without any slide: [self.prs.slides[0]] raises
    [IndexError] in the builder's constructor, and the error leaves the
    handler uncaught, whatever JSON value the content is. *)
Theorem template_without_slides_escapes (env : environment) (req : request)
    (template content_file : FileStorage) (content : value)
    (p : presentation) :
  both_parts req template content_file ->
  read_content env content_file = inr content ->
  open_package env (stream template) = inr p ->
  slides p = [] ->
  generate_ppt env req = (inl IndexError, printed_before_build env).
Proof.
  intros Hparts Hread Hopen Hempty.
  by rewrite (generate_ppt_builds _ _ _ _ _ Hparts Hread), Hopen, Hempty.
Qed.

Lemma template_without_slides_escapes_witness :
  generate_ppt env_no_slides
    (request_of template_part (content_part [x7b; x7d]))
  = (inl IndexError, printed_before_build env_no_slides).
Proof.
  apply (template_without_slides_escapes env_no_slides _ template_part
           (content_part [x7b; x7d]) (VDict []) {| slides := [] |});
    [repeat split| | |]; reflexivity.
Defined.

(** X4. A template whose package cannot be opened: the library's
    exception leaves the handler uncaught.  The content has been read
    before, so this is seen only when the content is valid JSON. *)
Theorem unreadable_template_escapes (env : environment) (req : request)
    (template content_file : FileStorage) (content : value) (e : exn) :
  both_parts req template content_file ->
  read_content env content_file = inr content ->
  open_package env (stream template) = inl e ->
  generate_ppt env req = (inl e, printed_before_build env).
Proof.
  intros Hparts Hread Hopen.
  by rewrite (generate_ppt_builds _ _ _ _ _ Hparts Hread), Hopen.
Qed.

Lemma unreadable_template_escapes_witness :
  generate_ppt example_env
    (request_of broken_template_part (content_part [x7b; x7d]))
  = (inl PackageNotFoundError, printed_before_build example_env).
Proof.
  apply (unreadable_template_escapes example_env _ broken_template_part
           (content_part [x7b; x7d]) (VDict []) PackageNotFoundError);
    [repeat split| |]; reflexivity.
Defined.

(** X5. A content that is valid JSON but not an object (an array, a
    string, a number, [true], [false] or [null]): [content_dict.items()]
    raises [AttributeError] after the template has been loaded; no slide
    is made and the error leaves the handler uncaught. *)
Theorem content_not_an_object_escapes (env : environment) (req : request)
    (template content_file : FileStorage) (content : value)
    (p : presentation) (base : slide) :
  both_parts req template content_file ->
  read_content env content_file = inr content ->
  is_dict content = false ->
  open_package env (stream template) = inr p ->
  slides p !! 0 = Some base ->
  generate_ppt env req =
    (inl AttributeError,
     printed_before_build env ++ [INIT_Base_slide_loaded; BUILD_Building]).
Proof.
  intros Hparts Hread Hdict Hopen Hbase.
  rewrite (generate_ppt_builds _ _ _ _ _ Hparts Hread), Hopen, Hbase.
  unfold build_from_content.
  erewrite bind_inr by reflexivity.
  erewrite bind_inl; cycle 1.
  { destruct content; try reflexivity. discriminate. }
  cbn [stdout]. by rewrite <- app_assoc.
Qed.

Lemma content_not_an_object_escapes_witness :
  generate_ppt example_env
    (request_of template_part (content_part [x5b; x31; x5d]))
  = (inl AttributeError,
     printed_before_build example_env
     ++ [INIT_Base_slide_loaded; BUILD_Building]).
Proof.
  apply (content_not_an_object_escapes example_env _ template_part
           (content_part [x5b; x31; x5d]) (VList [VInt 1])
           {| slides := [example_base] |} example_base);
    [repeat split| | | |]; reflexivity.
Defined.



Lemma utf8_decode_brackets n bs :
  utf8_decode (repeat 91%N n ++ bs) = app (repeat 91%N n) <$> utf8_decode bs.
Proof.
  induction n as [|n IH]; simpl.
  - by destruct (utf8_decode bs).
  - change ((91 <? 128)%N) with true. cbn [fmap]. rewrite IH.
    by destruct (utf8_decode bs).
Qed.

Lemma universal_newlines_brackets n s :
  universal_newlines (repeat 91%N n ++ s) = repeat 91%N n ++ universal_newlines s.
Proof. induction n as [|n IH]; simpl; [done|]. by rewrite IH. Qed.

(** Arrays nested deeper than the decoder may go. *)
Lemma scan_once_too_deep depth s :
  scan_once depth (repeat 91%N (S depth) ++ s) = inl RecursionError.
Proof.
  induction depth as [|d IH]; [reflexivity|].
  change (repeat 91%N (S (S d)) ++ s)
    with (91%N :: 91%N :: (repeat 91%N d ++ s)).
  change (scan_once (S d) (91%N :: 91%N :: (repeat 91%N d ++ s)))
    with (elements (scan_once d) (S (length (repeat 91%N d ++ s))) []
            (91%N :: (repeat 91%N d ++ s))).
  change (91%N :: (repeat 91%N d ++ s)) with (repeat 91%N (S d) ++ s).
  unfold elements. by rewrite IH.
Qed.

Lemma json_loads_too_deep limit s :
  json_loads limit (repeat 91%N (S limit) ++ s) = inl RecursionError.
Proof.
  unfold json_loads.
  change (repeat 91%N (S limit) ++ s) with (91%N :: (repeat 91%N limit ++ s)).
  change (skip_ws (91%N :: (repeat 91%N limit ++ s)))
    with (repeat 91%N (S limit) ++ s).
  by rewrite scan_once_too_deep.
Qed.

(** X7. A content that opens more nested arrays than the interpreter's
    recursion limit leaves room for is not answered 400: the decoder
    raises [RecursionError], which the handler does not catch, whether
    or not the brackets are ever closed. *)
Theorem deep_nesting_escapes (env : environment) (req : request)
    (template content_file : FileStorage) (rest : list byte) (text : pystr) :
  both_parts req template content_file ->
  stream content_file = repeat x5b (S (recursion_limit env)) ++ rest ->
  utf8_decode (bytes_N rest) = Some text ->
  generate_ppt env req =
    (inl RecursionError,
     [REQUEST_received; TEMP_created (tmpdir env); FILE_Saving;
      FILE_Reading]).
Proof.
  intros Hparts Hstream Hutf.
  apply (generate_ppt_read_error env req template content_file
           RecursionError Hparts).
  unfold read_content, bytes_N. rewrite Hstream, List.map_app, map_repeat.
  change (Byte.to_N x5b) with 91%N.
  rewrite utf8_decode_brackets. fold (bytes_N rest). rewrite Hutf.
  cbn [fmap option_fmap option_map].
  by rewrite universal_newlines_brackets, json_loads_too_deep.
Qed.

Lemma deep_nesting_escapes_witness :
  generate_ppt env_shallow
    (request_of template_part
       (content_part [x5b; x5b; x5b; x5d; x5d; x5d])) =
    (inl RecursionError,
     [REQUEST_received; TEMP_created (tmpdir env_shallow); FILE_Saving;
      FILE_Reading]).
Proof.
  apply (deep_nesting_escapes env_shallow _ template_part
           (content_part [x5b; x5b; x5b; x5d; x5d; x5d])
           [x5d; x5d; x5d] (py "]]]"));
    [repeat split| |]; reflexivity.
Defined.

(** ** Where build_from_content stops *)


















(** ** What add_content_slide writes, and where *)

(** X12. Whatever JSON value it is given, and whether it returns or
    raises, [build_from_content] only appends: the slides the
    presentation had are still its first slides, unchanged, the base
    slide is the same, and nothing printed before is lost. *)
Theorem build_from_content_only_appends (content_dict : value) (s : state) :
  let s' := snd (build_from_content content_dict s) in
  base_slide (self s') = base_slide (self s) /\
  (exists more, slides (prs (self s')) = slides (prs (self s)) ++ more) /\
  (exists out, stdout s' = stdout s ++ out).
Proof. apply only_appends_build_from_content. Qed.


(** X14. When the layout of the base slide gives no body placeholder,
    the content is never looked at: the call does the same for any two
    contents, of whatever type. *)
Theorem content_unused_without_body_placeholder (title c1 c2 : value)
    (s : state) :
  content_placeholder (new_slide_of (layout (base_slide (self s)))) = None ->
  add_content_slide title c1 s = add_content_slide title c2 s.
Proof.
  destruct s as [[[sls] base] out]. cbn [self base_slide].
  rewrite <- duplicated_content_placeholder. intros Hcp.
  change ({| self := {| prs := {| slides := sls |}; base_slide := base |};
             stdout := out |}) with (St sls base out).
  rewrite (add_content_slide_no_body title c1) by done.
  by rewrite (add_content_slide_no_body title c2).
Qed.

Lemma content_unused_without_body_placeholder_witness :
  add_content_slide (VStr (py "Welcome")) (VStr (py "lost"))
    (builder_with title_only)
  = add_content_slide (VStr (py "Welcome")) (VInt 7)
      (builder_with title_only).
Proof.
  apply (content_unused_without_body_placeholder (VStr (py "Welcome"))
           (VStr (py "lost")) (VInt 7) (builder_with title_only)).
  reflexivity.
Defined.











(** ** Which placeholder is the body *)






(** ** The paragraphs of the body *)













(** ** Counting the slides *)





(** ** The sections of an outline are distinct *)










